(** * Telemetry configuration defaults of the Google Cloud plugin

    A shallow embedding of [TelemetryConfigs] (plugin entry file of
    js/plugins/google-cloud), of the configuration types of
    js/plugins/google-cloud/src/types.ts and of [GcpLogger.getLogger],
    together with the properties the design document states about them.

    JavaScript objects are finite maps from property names to values
    ([gmap string value]); the object spread [{ ...a, ...b }] is the union of
    the two maps in which the entries of [b] win.  Property order, which a
    JavaScript object also remembers, plays no role in the code and is not
    modelled.

    The code is embedded twice: once with objects as their contents, which is
    what most of the properties are about, and once over a store of mutable
    cells ([Module Store]), which is where allocation, aliasing and the
    absence of writes can be stated.  [store_result_contents] relates the
    two. *)

From stdpp Require Import gmap strings list fin_maps.
From Stdlib Require Import ZArith.

#[local] Open Scope string_scope.
#[local] Set Warnings "-register-all".

(** ** JavaScript values *)

(** The numbers the code writes down and passes around.  The code performs no
    arithmetic; the only operation it ever applies to a number is the
    conversion to a boolean, which tells zero and [NaN] from the rest, so
    integer-valued numbers and [NaN] are what is represented. *)
Inductive number :=
  | Int (z : Z)
  | NaN.

Arguments Int z%_Z.

(** A value is a primitive, an array, or an object: a class name (the
    constructor it was made with, ["Object"] for an object literal) and its own
    properties. *)
Inductive value :=
  | VUndefined
  | VNull
  | VBool (b : bool)
  | VNumber (n : number)
  | VString (s : string)
  | VArray (xs : list value)
  | VObject (cls : string) (props : gmap string value).

(** The own properties of an object. *)
Abbreviation object := (gmap string value).

(** An object literal [{ ... }]. *)
Definition literal (props : object) : value := VObject "Object" props.

(** ToBoolean, the conversion behind [!], [? :] and [if]. *)
Definition to_boolean (v : value) : bool :=
  match v with
  | VUndefined | VNull => false
  | VBool b => b
  | VNumber (Int z) => negb (Z.eqb z 0%Z)
  | VNumber NaN => false
  | VString s => negb (String.eqb s "")
  | VArray _ | VObject _ _ => true
  end.

(** The prefix operator [!]. *)
Definition js_not (v : value) : value := VBool (negb (to_boolean v)).

(** The property read [o.f]: the value stored under [f], [undefined] when the
    object has no such property. *)
Definition get (o : object) (f : string) : value :=
  default VUndefined (o !! f).

(** The spread [{ ...a, ...b }]: every own property of [a], then every own
    property of [b], a later one replacing an earlier one of the same name.
    A property whose value is [undefined] is copied like any other. *)
Definition spread (a b : object) : object := b ∪ a.

(** ** The configuration types *)

(** The shapes the interfaces ask of a property.  [Sampler],
    [InstrumentationConfigMap] and [Instrumentation] are OpenTelemetry's
    interfaces; of those only "is an object" is kept. *)
Inductive ty :=
  | TBoolean
  | TNumber
  | TObject
  | TArray (elem : ty).

Fixpoint has_type (t : ty) (v : value) : bool :=
  match t, v with
  | TBoolean, VBool _ => true
  | TNumber, VNumber _ => true
  | TObject, VObject _ _ => true
  | TArray t', VArray xs => forallb (has_type t') xs
  | _, _ => false
  end.

(** An optional property [f?: T]: missing, [undefined], or a [T]. *)
Definition optional (t : ty) (p : option value) : bool :=
  match p with
  | None | Some VUndefined => true
  | Some v => has_type t v
  end.

(** A required property [f: T]. *)
Definition required (t : ty) (p : option value) : bool :=
  match p with
  | None => false
  | Some v => has_type t v
  end.

(** [interface GcpTelemetryConfigOptions]: what a caller may override.  As in
    TypeScript, properties the interface does not name are not looked at. *)
Definition GcpTelemetryConfigOptions (o : object) : bool :=
  optional TObject (o !! "sampler")
  && optional TBoolean (o !! "autoInstrumentation")
  && optional TObject (o !! "autoInstrumentationConfig")
  && optional (TArray TObject) (o !! "instrumentations")
  && optional TNumber (o !! "metricExportIntervalMillis")
  && optional TNumber (o !! "metricExportTimeoutMillis")
  && optional TBoolean (o !! "disableMetrics")
  && optional TBoolean (o !! "disableTraces")
  && optional TBoolean (o !! "forceDevExport").

(** The property names of [interface GcpTelemetryConfig], in the order of
    types.ts. *)
Definition GcpTelemetryConfig_fields : list string :=
  [ "sampler"; "autoInstrumentation"; "autoInstrumentationConfig";
    "metricExportIntervalMillis"; "metricExportTimeoutMillis";
    "instrumentations"; "disableMetrics"; "disableTraces"; "export" ].

(** [interface GcpTelemetryConfig]: the resolved configuration. *)
Definition GcpTelemetryConfig (c : object) : bool :=
  required TObject (c !! "sampler")
  && required TBoolean (c !! "autoInstrumentation")
  && required TObject (c !! "autoInstrumentationConfig")
  && required TNumber (c !! "metricExportIntervalMillis")
  && required TNumber (c !! "metricExportTimeoutMillis")
  && required (TArray TObject) (c !! "instrumentations")
  && required TBoolean (c !! "disableMetrics")
  && required TBoolean (c !! "disableTraces")
  && required TBoolean (c !! "export").

(** A property read that yields something other than [undefined]. *)
Definition is_defined (v : value) : bool :=
  match v with
  | VUndefined => false
  | _ => true
  end.

(** Every property of [GcpTelemetryConfig] reads as a defined value. *)
Definition complete (c : object) : bool :=
  forallb (fun f => is_defined (get c f)) GcpTelemetryConfig_fields.

(** ** The environment *)

(** Modelled from the spec: [isDevEnv] is imported from the host framework
    ('@genkit-ai/core') and its source is not among these files; the design
    document describes it as the environment classification signal with the
    two outcomes development and production. *)
Inductive environment :=
  | development
  | production.

Definition isDevEnv (e : environment) : bool :=
  match e with
  | development => true
  | production => false
  end.

(** ** TelemetryConfigs *)

(** [new AlwaysOnSampler()]: an object of that class without own properties. *)
Definition AlwaysOnSampler : value := VObject "AlwaysOnSampler" ∅.

Module TelemetryConfigs.

(** The local constant [defaults] of [developmentDefaults]. *)
Definition developmentBase (overrides : object) : object :=
  {[ "sampler" := AlwaysOnSampler;
     "autoInstrumentation" := VBool true;
     "autoInstrumentationConfig" :=
       literal {[ "@opentelemetry/instrumentation-dns" :=
                    literal {[ "enabled" := VBool false ]} ]};
     "instrumentations" := VArray [];
     "metricExportIntervalMillis" := VNumber (Int 5000);
     "metricExportTimeoutMillis" := VNumber (Int 5000);
     "disableMetrics" := VBool false;
     "disableTraces" := VBool false;
     "export" := js_not (js_not (get overrides "forceDevExport")) ]}.

(** The local constant [defaults] of [productionDefaults]. *)
Definition productionBase : object :=
  {[ "sampler" := AlwaysOnSampler;
     "autoInstrumentation" := VBool true;
     "autoInstrumentationConfig" :=
       literal {[ "@opentelemetry/instrumentation-dns" :=
                    literal {[ "enabled" := VBool false ]} ]};
     "instrumentations" := VArray [];
     "metricExportIntervalMillis" := VNumber (Int 300000);
     "metricExportTimeoutMillis" := VNumber (Int 300000);
     "disableMetrics" := VBool false;
     "disableTraces" := VBool false;
     "export" := VBool true ]}.

(** The argument is [None] when the caller passes [undefined] or nothing;
    the parameter default [= {}] then supplies the empty object. *)
Definition developmentDefaults (arg : option object) : object :=
  let overrides := default ∅ arg in
  let defaults := developmentBase overrides in
  spread defaults overrides.

Definition productionDefaults (arg : option object) : object :=
  let overrides := default ∅ arg in
  let defaults := productionBase in
  spread defaults overrides.

(** [defaults]; the outcome of the call [isDevEnv()] is the parameter [e]. *)
Definition defaults (e : environment) (arg : option object) : object :=
  let overrides := default ∅ arg in
  if isDevEnv e
  then developmentDefaults (Some overrides)
  else productionDefaults (Some overrides).

(** The base record the branch for [e] starts from. *)
Definition base (e : environment) (overrides : object) : object :=
  if isDevEnv e then developmentBase overrides else productionBase.

End TelemetryConfigs.

(** [resolve(e, o)] of the design document is [TelemetryConfigs.defaults]
    called with the override record [o] while the environment is [e]. *)
Definition resolve (e : environment) (o : object) : object :=
  TelemetryConfigs.defaults e (Some o).

(** Whether a value is a number that is an integer above zero. *)
Definition is_positive_integer (v : value) : bool :=
  match v with
  | VNumber (Int z) => Z.ltb 0%Z z
  | _ => false
  end.

(** The own properties of a value that is an object, none otherwise. *)
Definition entries (v : value) : object :=
  match v with
  | VObject _ props => props
  | _ => ∅
  end.

(** ** GcpLogger *)

(** [JWTInput] (google-auth-library) and [Writable] (node's stream) are
    foreign types the logger only hands on; they stay abstract. *)
Section GcpLogger.

Context {JWTInput Writable : Type}.

(** [interface GcpPluginConfig] of types.ts. *)
Record GcpPluginConfig := {
  projectId : option string;
  telemetryConfig : object;
  credentials : option JWTInput;
}.

(** The log record winston hands to a format. *)
Record Info := {
  level : string;
  message : string;
}.

(** The formats of winston the logger chooses from: [winston.format.json()]
    and [winston.format.printf(template)]. *)
Inductive Format :=
  | format_json
  | format_printf (template : Info → string).

(** The options [LoggingWinston] is constructed with. *)
Record LoggingWinstonOptions := {
  lw_projectId : option string;
  lw_labels : list (string * string);
  lw_prefix : string;
  lw_logName : string;
  lw_credentials : option JWTInput;
}.

(** The transports the logger chooses from: [new LoggingWinston(options)]
    (Cloud Logging), [new winston.transports.Console()] and
    [new winston.transports.Stream({ stream })]. *)
Inductive Transport :=
  | LoggingWinston (options : LoggingWinstonOptions)
  | Console
  | Stream (stream : Writable).

(** What [winston.createLogger] is called with. *)
Record LoggerOptions := {
  transports : list Transport;
  format : Format;
}.

(** The template literal [`[${info.level}] ${info.message}`]. *)
Definition printf_template (info : Info) : string :=
  "[" ++ level info ++ "] " ++ message info.

(** [__addTransportStreamForTesting]: assigns the module variable
    [additionalStream], whose state is [None] until then. *)
Definition __addTransportStreamForTesting
    (stream : Writable) (additionalStream : option Writable) : option Writable :=
  Some stream.

(** An instance of [class GcpLogger]: the constructor stores its argument
    in the field [config]. *)
Record GcpLogger := {
  config : GcpPluginConfig;
}.

(** [GcpLogger.getLogger], given the state of the module variable
    [additionalStream]; the result is the argument of
    [winston.createLogger].  The parameter [env] is not used by the body. *)
Definition getLogger (this : GcpLogger)
    (additionalStream : option Writable) (env : option string) : LoggerOptions :=
  let format :=
    if to_boolean (get (telemetryConfig (config this)) "export")
    then format_json
    else format_printf printf_template in
  let transports : list Transport := [] in
  let transports :=
    app transports
    [ if to_boolean (get (telemetryConfig (config this)) "export")
      then LoggingWinston {| lw_projectId := projectId (config this);
                             lw_labels := [("module", "genkit")];
                             lw_prefix := "genkit";
                             lw_logName := "genkit_log";
                             lw_credentials := credentials (config this) |}
      else Console ] in
  let transports :=
    match additionalStream with
    | Some stream => app transports [Stream stream]
    | None => transports
    end in
  {| transports := transports; format := format |}.

End GcpLogger.

Arguments GcpPluginConfig : clear implicits.
Arguments GcpLogger : clear implicits.
Arguments LoggingWinstonOptions : clear implicits.
Arguments Transport : clear implicits.
Arguments LoggerOptions : clear implicits.

(** ** TelemetryConfigs over a store

    The definitions above read an object as its contents.  In the running
    program an object is a reference: [new AlwaysOnSampler()] and every object
    or array literal allocate, the spread copies property values, which are
    references where the properties are objects, and nothing is written to an
    object that exists already.  This module spells the same three functions
    out over a store, so that what a call does to the store can be stated. *)

Module Store.

(** A location is its position in the store. *)
Definition loc := nat.

(** A primitive or a reference to a cell of the store. *)
Inductive val :=
  | RUndefined
  | RNull
  | RBool (b : bool)
  | RNumber (n : number)
  | RString (s : string)
  | RRef (l : loc).

Inductive cell :=
  | Object (cls : string) (props : gmap string val)
  | Array (xs : list val).

(** The store: the cells allocated so far, oldest first. *)
Abbreviation heap := (list cell).

Definition to_boolean (v : val) : bool :=
  match v with
  | RUndefined | RNull => false
  | RBool b => b
  | RNumber (Int z) => negb (Z.eqb z 0%Z)
  | RNumber NaN => false
  | RString s => negb (String.eqb s "")
  | RRef _ => true
  end.

Definition js_not (v : val) : val := RBool (negb (to_boolean v)).

Definition get (o : gmap string val) (f : string) : val :=
  default RUndefined (o !! f).

(** A computation reads and extends the store; [None] stands for a step
    the program cannot reach: following a reference that is no object. *)
Definition M (A : Type) : Type := heap → option (A * heap).

#[export] Instance M_ret : MRet M := λ A a h, Some (a, h).

#[export] Instance M_bind : MBind M := λ A B f m h,
  match m h with
  | Some (a, h') => f a h'
  | None => None
  end.

(** Allocation: the new cell goes to the end of the store. *)
Definition new (c : cell) : M val :=
  λ h, Some (RRef (length h), app h [c]).

(** The own properties of the object a value refers to. *)
Definition own_properties (v : val) : M (gmap string val) :=
  λ h, match v with
       | RRef l =>
           match h !! l with
           | Some (Object _ props) => Some (props, h)
           | _ => None
           end
       | _ => None
       end.

(** The parameter default [overrides = {}]. *)
Definition or_empty_object (arg : val) : M val :=
  match arg with
  | RUndefined => new (Object "Object" ∅)
  | _ => mret arg
  end.

(** [{ ...a, ...b }] *)
Definition spread (a b : val) : M val :=
  pa ← own_properties a;
  pb ← own_properties b;
  new (Object "Object" (pb ∪ pa)).

Definition developmentDefaults (arg : val) : M val :=
  overrides ← or_empty_object arg;
  sampler ← new (Object "AlwaysOnSampler" ∅);
  dns ← new (Object "Object" {[ "enabled" := RBool false ]});
  config ← new (Object "Object" {[ "@opentelemetry/instrumentation-dns" := dns ]});
  instrumentations ← new (Array []);
  o ← own_properties overrides;
  defaults ← new (Object "Object"
    {[ "sampler" := sampler;
       "autoInstrumentation" := RBool true;
       "autoInstrumentationConfig" := config;
       "instrumentations" := instrumentations;
       "metricExportIntervalMillis" := RNumber (Int 5000);
       "metricExportTimeoutMillis" := RNumber (Int 5000);
       "disableMetrics" := RBool false;
       "disableTraces" := RBool false;
       "export" := js_not (js_not (get o "forceDevExport")) ]});
  spread defaults overrides.

Definition productionDefaults (arg : val) : M val :=
  overrides ← or_empty_object arg;
  sampler ← new (Object "AlwaysOnSampler" ∅);
  dns ← new (Object "Object" {[ "enabled" := RBool false ]});
  config ← new (Object "Object" {[ "@opentelemetry/instrumentation-dns" := dns ]});
  instrumentations ← new (Array []);
  defaults ← new (Object "Object"
    {[ "sampler" := sampler;
       "autoInstrumentation" := RBool true;
       "autoInstrumentationConfig" := config;
       "instrumentations" := instrumentations;
       "metricExportIntervalMillis" := RNumber (Int 300000);
       "metricExportTimeoutMillis" := RNumber (Int 300000);
       "disableMetrics" := RBool false;
       "disableTraces" := RBool false;
       "export" := RBool true ]});
  spread defaults overrides.

Definition defaults (e : environment) (arg : val) : M val :=
  overrides ← or_empty_object arg;
  if isDevEnv e
  then developmentDefaults overrides
  else productionDefaults overrides.

(** What a value looks like from outside: references followed into the
    store down to depth [n], anything deeper cut off as [undefined]. *)
Fixpoint snapshot (n : nat) (h : heap) (v : val) : value :=
  match v with
  | RUndefined => VUndefined
  | RNull => VNull
  | RBool b => VBool b
  | RNumber x => VNumber x
  | RString s => VString s
  | RRef l =>
      match n with
      | O => VUndefined
      | S n' =>
          match h !! l with
          | Some (Object cls props) => VObject cls (snapshot n' h <$> props)
          | Some (Array xs) => VArray (snapshot n' h <$> xs)
          | None => VUndefined
          end
      end
  end.

(** Structural equality of two values of one store: they look the same
    down to every depth. *)
Definition deep_equal (h : heap) (a b : val) : Prop :=
  ∀ n, snapshot n h a = snapshot n h b.

(** The properties of the constant [defaults] of the branch for [e], when
    the four objects it refers to sit at [n], [n + 1], [n + 2], [n + 3]. *)
Definition base_props (e : environment) (n : loc) (o : gmap string val)
    : gmap string val :=
  {[ "sampler" := RRef n;
     "autoInstrumentation" := RBool true;
     "autoInstrumentationConfig" := RRef (S (S n));
     "instrumentations" := RRef (S (S (S n)));
     "metricExportIntervalMillis" :=
       RNumber (Int (if isDevEnv e then 5000 else 300000));
     "metricExportTimeoutMillis" :=
       RNumber (Int (if isDevEnv e then 5000 else 300000));
     "disableMetrics" := RBool false;
     "disableTraces" := RBool false;
     "export" :=
       if isDevEnv e then js_not (js_not (get o "forceDevExport"))
       else RBool true ]}.

(** The cells a call adds to a store of [n] cells when the overrides have
    the properties [o]: the sampler, the two object literals of
    [autoInstrumentationConfig], the array, the constant [defaults] and the
    result. *)
Definition allocated (e : environment) (n : loc) (o : gmap string val)
    : list cell :=
  [ Object "AlwaysOnSampler" ∅;
    Object "Object" {[ "enabled" := RBool false ]};
    Object "Object" {[ "@opentelemetry/instrumentation-dns" := RRef (S n) ]};
    Array [];
    Object "Object" (base_props e n o);
    Object "Object" (o ∪ base_props e n o) ].

(** A value that does not point outside the store. *)
Definition valid (h : heap) (v : val) : Prop :=
  match v with
  | RRef l => l < length h
  | _ => True
  end.

(** A store none of whose cells points outside it, as every store of a
    running program is. *)
Definition closed (h : heap) : Prop :=
  ∀ l c, h !! l = Some c →
    match c with
    | Object _ props => ∀ f v, props !! f = Some v → valid h v
    | Array xs => ∀ i v, xs !! i = Some v → valid h v
    end.

(** The argument a caller can pass: nothing, or a reference to an object
    of the store. *)
Definition is_argument (h : heap) (arg : val) : Prop :=
  arg = RUndefined ∨ ∃ l cls props, arg = RRef l ∧ h !! l = Some (Object cls props).

End Store.

(** ** The plugins

    The initialisers the two plugins hand to [genkitPlugin]: [googleCloud] of
    the google-cloud entry file and [firebase] of
    js/plugins/firebase/src/index.ts.  Both are asynchronous and can be
    rejected; each [await] is a step of an error monad.  What they ask of
    the outside (the JSON parser, the google-auth-library client) is a field
    of [World]; credentials and parsed JSON are JavaScript values. *)

Section Plugins.

(** Whatever a rejected call is rejected with. *)
Context {error : Type}.

Inductive outcome (A : Type) :=
  | Ok (a : A)
  | Throw (err : error).

#[global] Arguments Ok {A} a.
#[global] Arguments Throw {A} err.

#[export] Instance outcome_ret : MRet outcome := λ A a, Ok a.

#[export] Instance outcome_bind : MBind outcome := λ A B f m,
  match m with
  | Ok a => f a
  | Throw err => Throw err
  end.

(** The argument [{ credentials }] of the auth client's constructor. *)
Record GoogleAuthOptions := {
  ao_credentials : value;
}.

(** [new GoogleAuth(authOptions)] and, with [None], [new GoogleAuth()]. *)
Record GoogleAuth := {
  authOptions : option GoogleAuthOptions;
}.

(** The calls that leave the code: [JSON.parse], which throws on text that
    is no JSON, and the two requests of the auth client. *)
Record World := {
  JSON_parse : string → outcome value;
  getCredentials : GoogleAuth → outcome value;
  getProjectId : GoogleAuth → outcome string;
}.

(** [process.env]. *)
Abbreviation process_env := (gmap string string).

(** The condition [if (process.env.NAME)]: the variable, if it is set to
    something other than the empty string. *)
Definition env_truthy (v : option string) : option string :=
  match v with
  | Some s => if to_boolean (VString s) then Some s else None
  | None => None
  end.

(** The first lines of both initialisers: the auth client and the local
    variable [credentials], which stays [undefined] ([None]) unless
    GCLOUD_SERVICE_ACCOUNT_CREDS is set. *)
Definition load_credentials (w : World) (env : process_env)
    : outcome (GoogleAuth * option value) :=
  match env_truthy (env !! "GCLOUD_SERVICE_ACCOUNT_CREDS") with
  | Some text =>
      serviceAccountCreds ← JSON_parse w text;
      let authOptions := {| ao_credentials := serviceAccountCreds |} in
      let authClient := {| authOptions := Some authOptions |} in
      credentials ← getCredentials w authClient;
      mret (authClient, Some credentials)
  | None =>
      let authClient := {| authOptions := None |} in
      mret (authClient, None)
  end.

(** [given || (await authClient.getProjectId())]: the request is made only
    when the left operand is falsy. *)
Definition projectId_or_lookup (w : World) (authClient : GoogleAuth)
    (given : option string) : outcome string :=
  match given with
  | Some s => if to_boolean (VString s) then mret s else getProjectId w authClient
  | None => getProjectId w authClient
  end.

(** [interface GcpPluginOptions]. *)
Record GcpPluginOptions := {
  o_projectId : option string;
  o_telemetryConfig : option object;
  o_credentials : option value;
}.

(** [interface FirestorePluginParams]. *)
Record FirestorePluginParams := {
  p_projectId : option string;
  p_flowStateStore : option object;
  p_traceStore : option object;
  p_telemetryConfig : option object;
}.

(** [new GcpOpenTelemetry(config)]: the class (gcpOpenTelemetry.js) is not
    among these files; kept is the argument its constructor is called
    with. *)
Record GcpOpenTelemetry := {
  otel_config : GcpPluginConfig value;
}.

(** An entry [{ id, value }] of what a plugin provides. *)
Record Provider (A : Type) := {
  provider_id : string;
  provider_value : A;
}.

#[global] Arguments provider_id {A} _.
#[global] Arguments provider_value {A} _.

(** [{ instrumentation, logger }] *)
Record Telemetry := {
  instrumentation : Provider GcpOpenTelemetry;
  logger : Provider (GcpLogger value);
}.

(** What [googleCloud] resolves to. *)
Record GoogleCloudProvides := {
  gc_telemetry : Telemetry;
}.

(** What [firebase] resolves to.  The two stores are classes of other
    packages; kept is the options object each constructor is called with. *)
Record FirebaseProvides := {
  fb_flowStateStore : Provider object;
  fb_traceStore : Provider object;
  fb_telemetry : Telemetry;
}.

(** [e?.f] on an optional record. *)
Definition optional_chain {A B} (e : option A) (f : A → option B) : option B :=
  match e with
  | Some a => f a
  | None => None
  end.

(** The spread of an optional object, [...e?.f], adds nothing when the
    operand is [undefined]. *)
Definition spread_optional (a : object) (b : option object) : object :=
  match b with
  | Some b => spread a b
  | None => a
  end.

(** A variable that may be [undefined], as a value. *)
Definition or_undefined (v : option value) : value :=
  match v with
  | Some v => v
  | None => VUndefined
  end.

(** The initialiser of the [googleCloud] plugin.  The local variable
    [credentials] is assigned and not read again. *)
Definition googleCloud (w : World) (e : environment) (env : process_env)
    (options : option GcpPluginOptions) : outcome GoogleCloudProvides :=
  '(authClient, credentials) ← load_credentials w env;
  projectId ← projectId_or_lookup w authClient (optional_chain options o_projectId);
  let config :=
    {| projectId := Some projectId;
       telemetryConfig :=
         TelemetryConfigs.defaults e (optional_chain options o_telemetryConfig);
       credentials := optional_chain options o_credentials |} in
  mret {| gc_telemetry :=
            {| instrumentation :=
                 {| provider_id := "googleCloud";
                    provider_value := {| otel_config := config |} |};
               logger :=
                 {| provider_id := "googleCloud";
                    provider_value := {| config := config |} |} |} |}.

(** The initialiser of the [firebase] plugin. *)
Definition firebase (w : World) (e : environment) (env : process_env)
    (params : option FirestorePluginParams) : outcome FirebaseProvides :=
  '(authClient, credentials) ← load_credentials w env;
  projectId ← projectId_or_lookup w authClient (optional_chain params p_projectId);
  let gcpOptions :=
    {| projectId := Some projectId;
       credentials := credentials;
       telemetryConfig :=
         TelemetryConfigs.defaults e (optional_chain params p_telemetryConfig) |} in
  let flowStateStoreOptions :=
    spread_optional
      {[ "projectId" := VString projectId;
         "credentials" := or_undefined credentials ]}
      (optional_chain params p_flowStateStore) in
  let traceStoreOptions :=
    spread_optional
      {[ "projectId" := VString projectId;
         "credentials" := or_undefined credentials ]}
      (optional_chain params p_traceStore) in
  mret {| fb_flowStateStore :=
            {| provider_id := "firestore";
               provider_value := flowStateStoreOptions |};
          fb_traceStore :=
            {| provider_id := "firestore";
               provider_value := traceStoreOptions |};
          fb_telemetry :=
            {| instrumentation :=
                 {| provider_id := "firebase";
                    provider_value := {| otel_config := gcpOptions |} |};
               logger :=
                 {| provider_id := "firebase";
                    provider_value := {| config := gcpOptions |} |} |} |}.

End Plugins.

Arguments outcome : clear implicits.
Arguments World : clear implicits.

(** Two sample worlds for examples.  In the first every outside call
    succeeds: only the text [{}] parses, the auth client returns a service
    account and detects a project.  In the second every outside call fails. *)
Definition obliging_world : World string :=
  {| JSON_parse := λ text,
       if String.eqb text "{}" then Ok (literal ∅) else Throw "SyntaxError";
     getCredentials := λ _,
       Ok (literal {[ "client_email" := VString "sa@example.com" ]});
     getProjectId := λ _, Ok "detected-project" |}.

Definition failing_world : World string :=
  {| JSON_parse := λ _, Throw "SyntaxError";
     getCredentials := λ _, Throw "no credentials";
     getProjectId := λ _, Throw "no project" |}.

(** The module variable [additionalStream] after a run of calls of
    [__addTransportStreamForTesting], first call first. *)
Definition register_streams {Writable : Type} (streams : list Writable)
    (additionalStream : option Writable) : option Writable :=
  foldl (λ state stream, __addTransportStreamForTesting stream state)
        additionalStream streams.

(** * Properties *)

Example resolve_dev_empty_export :
  get (resolve development ∅) "export" = VBool false.
Proof. reflexivity. Qed.

Example resolve_prod_interval :
  get (resolve production ∅) "metricExportIntervalMillis" = VNumber (Int 300000).
Proof. reflexivity. Qed.

(** ** The spread and the two branches *)

Lemma lookup_spread (a b : object) (f : string) :
  spread a b !! f = match b !! f with Some v => Some v | None => a !! f end.
Proof.
  unfold spread. rewrite lookup_union.
  destruct (b !! f), (a !! f); reflexivity.
Qed.

Lemma get_spread (a b : object) (f : string) :
  get (spread a b) f = match b !! f with Some v => v | None => get a f end.
Proof.
  unfold get. rewrite lookup_spread. destruct (b !! f); reflexivity.
Qed.

Lemma resolve_spread (e : environment) (o : object) :
  resolve e o = spread (TelemetryConfigs.base e o) o.
Proof. destruct e; reflexivity. Qed.

Lemma defaults_no_argument (e : environment) :
  TelemetryConfigs.defaults e None = resolve e ∅.
Proof. destruct e; reflexivity. Qed.

Lemma double_not (v : value) : js_not (js_not v) = VBool (to_boolean v).
Proof. unfold js_not. simpl. by rewrite negb_involutive. Qed.

(** Outside [export] the base record does not look at the overrides. *)
Lemma base_independent (e : environment) (o : object) (f : string) :
  f ≠ "export" ∨ e = production →
  TelemetryConfigs.base e o !! f = TelemetryConfigs.base e ∅ !! f.
Proof.
  intros [Hf | ->]; [| reflexivity].
  destruct e; [| reflexivity].
  unfold TelemetryConfigs.base, TelemetryConfigs.developmentBase.
  cbn [isDevEnv]. rewrite !lookup_insert.
  repeat (case_decide; [reflexivity |]).
  rewrite !lookup_singleton_ne by congruence. reflexivity.
Qed.

(** Every property of [GcpTelemetryConfig] is a property of both base
    records. *)
Lemma base_has_field (e : environment) (o : object) (f : string) :
  In f GcpTelemetryConfig_fields → is_Some (TelemetryConfigs.base e o !! f).
Proof.
  intros Hf. simpl in Hf.
  destruct e; repeat (destruct Hf as [<- | Hf]; [eexists; reflexivity |]);
    destruct Hf.
Qed.

(** In development the base value of [export] is the truth value of
    [forceDevExport]. *)
Lemma development_export (o : object) :
  TelemetryConfigs.developmentBase o !! "export"
  = Some (VBool (to_boolean (get o "forceDevExport"))).
Proof.
  unfold TelemetryConfigs.developmentBase. rewrite double_not. reflexivity.
Qed.

(** A [boolean | undefined] is truthy exactly when it is [true]. *)
Lemma optional_boolean_truthy (o : object) (f : string) :
  optional TBoolean (o !! f) = true →
  to_boolean (get o f) = true ↔ get o f = VBool true.
Proof.
  unfold get. destruct (o !! f) as [[| | [] | | | |] |]; simpl; intros Ht;
    try discriminate; split; intros H; congruence.
Qed.

(** Every override record of the declared type meets the typing condition
    the export gate below asks of [forceDevExport]. *)
Lemma options_forceDevExport (o : object) :
  GcpTelemetryConfigOptions o = true →
  optional TBoolean (o !! "forceDevExport") = true.
Proof.
  unfold GcpTelemetryConfigOptions. rewrite !andb_true_iff. tauto.
Qed.

(** ** Calls as store transformers *)

Section StoreRuns.

Import Store.

Lemma length_snoc (h : heap) (c : cell) : length (h ++ [c])%list = S (length h).
Proof. rewrite length_app. simpl. lia. Qed.

Lemma bind_new {A} (c : cell) (k : val → M A) (h : heap) :
  (new c ≫= k) h = k (RRef (length h)) (h ++ [c])%list.
Proof. reflexivity. Qed.

Lemma bind_own_properties {A} (l : loc) (cls : string) (p : gmap string val)
    (k : gmap string val → M A) (h : heap) :
  h !! l = Some (Object cls p) →
  (own_properties (RRef l) ≫= k) h = k p h.
Proof.
  intros Hl. unfold mbind, M_bind, own_properties. rewrite Hl. reflexivity.
Qed.

Lemma lookup_snoc_last (h : heap) (c : cell) :
  (h ++ [c])%list !! length h = Some c.
Proof. by apply list_lookup_middle. Qed.

Lemma lookup_snoc_old (h : heap) (c c' : cell) (l : loc) :
  h !! l = Some c → (h ++ [c'])%list !! l = Some c.
Proof. intros Hl. by apply lookup_app_l_Some. Qed.

(** What the development branch does to the store. *)
Lemma run_developmentDefaults (h : heap) (l : loc) (cls : string)
    (p : gmap string val) :
  h !! l = Some (Object cls p) →
  developmentDefaults (RRef l) h
  = Some (RRef (5 + length h), (h ++ allocated development (length h) p)%list).
Proof.
  intros Hl. unfold developmentDefaults, or_empty_object.
  change (mret (RRef l) ≫= ?k) with (k (RRef l)). cbv beta.
  rewrite !bind_new.
  rewrite (bind_own_properties l cls p)
    by (repeat apply lookup_snoc_old; exact Hl).
  rewrite bind_new. unfold spread.
  erewrite bind_own_properties by apply lookup_snoc_last.
  rewrite (bind_own_properties l cls p)
    by (repeat apply lookup_snoc_old; exact Hl).
  unfold new. rewrite !length_snoc. rewrite <- !app_assoc. reflexivity.
Qed.

Lemma run_productionDefaults (h : heap) (l : loc) (cls : string)
    (p : gmap string val) :
  h !! l = Some (Object cls p) →
  productionDefaults (RRef l) h
  = Some (RRef (5 + length h), (h ++ allocated production (length h) p)%list).
Proof.
  intros Hl. unfold productionDefaults, or_empty_object.
  change (mret (RRef l) ≫= ?k) with (k (RRef l)). cbv beta.
  rewrite !bind_new. unfold spread.
  erewrite bind_own_properties by apply lookup_snoc_last.
  rewrite (bind_own_properties l cls p)
    by (repeat apply lookup_snoc_old; exact Hl).
  unfold new. rewrite !length_snoc. rewrite <- !app_assoc. reflexivity.
Qed.

(** A call with an object: six cells are added, the last is the result. *)
Lemma run_defaults (e : environment) (h : heap) (l : loc) (cls : string)
    (p : gmap string val) :
  h !! l = Some (Object cls p) →
  defaults e (RRef l) h
  = Some (RRef (5 + length h), (h ++ allocated e (length h) p)%list).
Proof.
  intros Hl. unfold defaults, or_empty_object.
  change (mret (RRef l) ≫= ?k) with (k (RRef l)). cbv beta.
  destruct e; cbn [isDevEnv].
  - by apply run_developmentDefaults with cls.
  - by apply run_productionDefaults with cls.
Qed.

(** A call without argument: the empty object of the parameter default
    comes first. *)
Lemma run_defaults_undefined (e : environment) (h : heap) :
  defaults e RUndefined h
  = Some (RRef (6 + length h),
          (h ++ Object "Object" ∅ :: allocated e (S (length h)) ∅)%list).
Proof.
  unfold defaults, or_empty_object. rewrite bind_new.
  rewrite (run_defaults e _ (length h) "Object" ∅) by apply lookup_snoc_last.
  rewrite length_snoc, <- app_assoc. reflexivity.
Qed.

(** Primitives look the same at every depth. *)
Lemma snapshot_primitive (n : nat) (h : heap) (v : val) :
  (∀ l, v ≠ RRef l) → snapshot n h v = snapshot 0 h v.
Proof. intros Hv. destruct n, v; try reflexivity. by destruct (Hv l). Qed.

(** The view of a reference unfolds by one step at the cell it names. *)
Lemma snapshot_object (n : nat) (h : heap) (l : loc) (cls : string)
    (p : gmap string val) :
  h !! l = Some (Object cls p) →
  snapshot (S n) h (RRef l) = VObject cls (snapshot n h <$> p).
Proof. intros Hl. simpl. rewrite Hl. reflexivity. Qed.

Lemma snapshot_array (n : nat) (h : heap) (l : loc) (xs : list val) :
  h !! l = Some (Array xs) →
  snapshot (S n) h (RRef l) = VArray (snapshot n h <$> xs).
Proof. intros Hl. simpl. rewrite Hl. reflexivity. Qed.

(** Where the cells of a call end up in any later store. *)
Lemma lookup_allocated (e : environment) (h k : heap) (p : gmap string val)
    (i : nat) (c : cell) :
  allocated e (length h) p !! i = Some c →
  (h ++ allocated e (length h) p ++ k)%list !! (i + length h)%nat = Some c.
Proof.
  intros Hi. rewrite lookup_app_r by lia.
  replace (i + length h - length h)%nat with i by lia.
  by apply lookup_app_l_Some.
Qed.

(** The constants [defaults] of two calls look the same, although each
    call has allocated its own sampler, mapping and array. *)
Lemma snapshot_base_props (e : environment) (H : heap) (a b : loc)
    (o : gmap string val) (n : nat) :
  (∀ i c, allocated e a o !! i = Some c → H !! (i + a)%nat = Some c) →
  (∀ i c, allocated e b o !! i = Some c → H !! (i + b)%nat = Some c) →
  snapshot n H <$> base_props e a o = snapshot n H <$> base_props e b o.
Proof.
  intros Ha Hb.
  assert (Hsampler : snapshot n H (RRef a) = snapshot n H (RRef b)).
  { destruct n; [reflexivity |].
    rewrite (snapshot_object n H a "AlwaysOnSampler" ∅) by exact (Ha 0%nat _ eq_refl).
    rewrite (snapshot_object n H b "AlwaysOnSampler" ∅) by exact (Hb 0%nat _ eq_refl).
    reflexivity. }
  assert (Hdns : ∀ m, snapshot m H (RRef (S a)) = snapshot m H (RRef (S b))).
  { intros [| m]; [reflexivity |].
    rewrite (snapshot_object m H (S a) "Object" {[ "enabled" := RBool false ]})
      by exact (Ha 1%nat _ eq_refl).
    rewrite (snapshot_object m H (S b) "Object" {[ "enabled" := RBool false ]})
      by exact (Hb 1%nat _ eq_refl).
    reflexivity. }
  assert (Hconfig : snapshot n H (RRef (S (S a))) = snapshot n H (RRef (S (S b)))).
  { destruct n; [reflexivity |].
    rewrite (snapshot_object n H (S (S a)) "Object"
               {[ "@opentelemetry/instrumentation-dns" := RRef (S a) ]})
      by exact (Ha 2%nat _ eq_refl).
    rewrite (snapshot_object n H (S (S b)) "Object"
               {[ "@opentelemetry/instrumentation-dns" := RRef (S b) ]})
      by exact (Hb 2%nat _ eq_refl).
    rewrite !map_fmap_singleton, Hdns. reflexivity. }
  assert (Harray : snapshot n H (RRef (S (S (S a))))
                   = snapshot n H (RRef (S (S (S b))))).
  { destruct n; [reflexivity |].
    rewrite (snapshot_array n H (S (S (S a))) []) by exact (Ha 3%nat _ eq_refl).
    rewrite (snapshot_array n H (S (S (S b))) []) by exact (Hb 3%nat _ eq_refl).
    reflexivity. }
  unfold base_props. rewrite !fmap_insert, !map_fmap_singleton.
  rewrite Hsampler, Hconfig, Harray. reflexivity.
Qed.

(** Two results in one store, made from the same override properties, are
    structurally equal and are two different objects. *)
Lemma results_deep_equal (e : environment) (H : heap) (a b : loc)
    (o : gmap string val) :
  (∀ i c, allocated e a o !! i = Some c → H !! (i + a)%nat = Some c) →
  (∀ i c, allocated e b o !! i = Some c → H !! (i + b)%nat = Some c) →
  deep_equal H (RRef (5 + a)) (RRef (5 + b)).
Proof.
  intros Ha Hb [| n]; [reflexivity |].
  rewrite (snapshot_object n H (5 + a) "Object" (o ∪ base_props e a o))
    by exact (Ha 5%nat _ eq_refl).
  rewrite (snapshot_object n H (5 + b) "Object" (o ∪ base_props e b o))
    by exact (Hb 5%nat _ eq_refl).
  rewrite !map_fmap_union.
  rewrite (snapshot_base_props e H a b o n Ha Hb). reflexivity.
Qed.

End StoreRuns.

(** ** The store model against the model by contents *)

(** Growing a closed store does not change how its values look. *)
Lemma snapshot_extend (h k : Store.heap) (n : nat) (v : Store.val) :
  Store.closed h → Store.valid h v → Store.snapshot n (h ++ k)%list v = Store.snapshot n h v.
Proof.
  intros Hclosed. revert v.
  induction n as [| n IH]; intros v Hv; destruct v as [| | | | | l];
    try reflexivity.
  simpl in Hv.
  destruct (lookup_lt_is_Some_2 h l Hv) as [[cls props | xs] Hl].
  - rewrite (snapshot_object n (h ++ k) l cls props)
      by (by apply lookup_app_l_Some).
    rewrite (snapshot_object n h l cls props) by exact Hl.
    f_equal. apply map_fmap_ext. intros f x Hx. apply IH.
    exact (Hclosed l _ Hl f x Hx).
  - rewrite (snapshot_array n (h ++ k) l xs) by (by apply lookup_app_l_Some).
    rewrite (snapshot_array n h l xs) by exact Hl.
    f_equal. apply list_fmap_ext. intros i x Hx. apply IH.
    exact (Hclosed l _ Hl i x Hx).
Qed.

(** A reference into the store is truthy, and so is what it looks like. *)
Lemma to_boolean_snapshot (h : Store.heap) (n : nat) (v : Store.val) :
  Store.valid h v → to_boolean (Store.snapshot (S n) h v) = Store.to_boolean v.
Proof.
  destruct v as [| | | [] | | l]; try reflexivity.
  intros Hl. destruct (lookup_lt_is_Some_2 h l Hl) as [[cls props | xs] Hc].
  - by rewrite (snapshot_object n h l cls props Hc).
  - by rewrite (snapshot_array n h l xs Hc).
Qed.

Lemma get_snapshot (h : Store.heap) (n : nat) (p : gmap string Store.val) (f : string) :
  get (Store.snapshot n h <$> p) f = Store.snapshot n h (Store.get p f).
Proof.
  unfold get, Store.get. rewrite lookup_fmap.
  destruct (p !! f); [reflexivity |]. by destruct n.
Qed.

(** The constant [defaults] of a call looks like the base record of the
    model by contents. *)
Lemma snapshot_base (e : environment) (h k : Store.heap) (p : gmap string Store.val)
    (n : nat) :
  Store.closed h → (∀ f v, p !! f = Some v → Store.valid h v) →
  Store.snapshot (2 + n) (h ++ Store.allocated e (length h) p ++ k)%list
    <$> Store.base_props e (length h) p
  = TelemetryConfigs.base e (Store.snapshot (2 + n) h <$> p).
Proof.
  intros Hclosed Hp. change (2 + n)%nat with (S (S n)).
  set (H := (h ++ Store.allocated e (length h) p ++ k)%list).
  assert (Hat : ∀ i c, Store.allocated e (length h) p !! i = Some c →
                       H !! (i + length h)%nat = Some c).
  { intros i c Hi. by apply lookup_allocated. }
  unfold Store.base_props. rewrite !fmap_insert, !map_fmap_singleton.
  rewrite (snapshot_object (S n) H (length h) "AlwaysOnSampler" ∅)
    by exact (Hat 0%nat _ eq_refl).
  rewrite (snapshot_object (S n) H (S (S (length h))) "Object"
             {[ "@opentelemetry/instrumentation-dns" := Store.RRef (S (length h)) ]})
    by exact (Hat 2%nat _ eq_refl).
  rewrite map_fmap_singleton.
  rewrite (snapshot_object n H (S (length h)) "Object"
             {[ "enabled" := Store.RBool false ]})
    by exact (Hat 1%nat _ eq_refl).
  rewrite map_fmap_singleton.
  rewrite (snapshot_array (S n) H (S (S (S (length h)))) [])
    by exact (Hat 3%nat _ eq_refl).
  rewrite fmap_empty, (snapshot_primitive n H (Store.RBool false)) by done.
  destruct e; cbn [isDevEnv TelemetryConfigs.base]; [| reflexivity].
  unfold TelemetryConfigs.developmentBase.
  rewrite get_snapshot, double_not.
  rewrite (to_boolean_snapshot h (S n)).
  - unfold Store.js_not. cbn [Store.snapshot Store.to_boolean].
    rewrite negb_involutive. reflexivity.
  - unfold Store.get. destruct (p !! "forceDevExport") eqn:Hf; [| exact I].
    exact (Hp _ _ Hf).
Qed.

(** X20. The result of a call on a closed store, seen from outside down to a
    depth of three or more (the depth of the default record), is the record
    the model by contents computes from the override object seen one level
    less deep.  What is proved about [resolve] is thereby proved about the
    contents of the object the store model returns. *)
Lemma store_result_contents (e : environment) (h : Store.heap) (l : Store.loc)
    (cls : string) (p : gmap string Store.val) (n : nat) :
  Store.closed h → h !! l = Some (Store.Object cls p) →
  ∃ r h',
    Store.defaults e (Store.RRef l) h = Some (r, h')
    ∧ Store.snapshot (3 + n) h' r
      = VObject "Object" (resolve e (Store.snapshot (2 + n) h <$> p)).
Proof.
  intros Hclosed Hl.
  exists (Store.RRef (5 + length h)), (h ++ Store.allocated e (length h) p)%list.
  split; [by apply run_defaults with cls |].
  assert (Hp : ∀ f v, p !! f = Some v → Store.valid h v)
    by exact (Hclosed l _ Hl).
  rewrite (snapshot_object (2 + n) _ (5 + length h) "Object"
             (p ∪ Store.base_props e (length h) p)).
  - f_equal. rewrite map_fmap_union, resolve_spread. unfold spread.
    rewrite <- (app_nil_r (Store.allocated e (length h) p)).
    rewrite (snapshot_base e h [] p n Hclosed Hp).
    f_equal. apply map_fmap_ext. intros f v Hv.
    apply snapshot_extend; [exact Hclosed | exact (Hp f v Hv)].
  - rewrite <- (app_nil_r (Store.allocated e (length h) p)).
    exact (lookup_allocated e h [] p 5 _ eq_refl).
Qed.

(** ** Override layering *)

(** C1. Field-wise override layering: in either environment [e], for an
    override record [o] and a property [f] (every property of
    [GcpTelemetryConfig] in particular), when [o] carries [f] the resolved
    record reads at [f] what [o] reads there, and when [o] does not carry [f]
    it reads what the base record of [e] reads there.  That base value is a
    constant of the environment, except for [export] in development, which
    the base record computes from [o.forceDevExport]. *)
Theorem override_layering (e : environment) (o : object) (f : string) :
  (is_Some (o !! f) → get (resolve e o) f = get o f)
  ∧ (o !! f = None →
     get (resolve e o) f = get (TelemetryConfigs.base e o) f
     ∧ (f ≠ "export" ∨ e = production →
        get (resolve e o) f = get (TelemetryConfigs.base e ∅) f)).
Proof.
  rewrite resolve_spread, get_spread. split.
  - intros [v Hv]. unfold get. rewrite Hv. reflexivity.
  - intros Hf. rewrite Hf. split; [reflexivity |].
    intros Hind. unfold get. rewrite (base_independent e o f Hind). reflexivity.
Qed.

Lemma override_layering_witness :
  get (resolve development {[ "disableTraces" := VBool true ]}) "disableTraces"
  = VBool true
  ∧ get (resolve development {[ "disableTraces" := VBool true ]}) "sampler"
    = AlwaysOnSampler.
Proof.
  pose proof (override_layering development
                {[ "disableTraces" := VBool true ]} "disableTraces") as [Hp _].
  pose proof (override_layering development
                {[ "disableTraces" := VBool true ]} "sampler") as [_ Ha].
  split.
  - rewrite Hp; [reflexivity | eexists; reflexivity].
  - destruct Ha as [_ Ha]; [reflexivity |].
    rewrite Ha; [reflexivity | left; discriminate].
Defined.

(** C2. Export gate: for an override record [o] that does not set [export]
    and whose [forceDevExport], as the interface asks, is a boolean if it is
    there at all, the development result has [export] true exactly when
    [o.forceDevExport] is [true], and false otherwise; with no overrides it is
    false.  The production result has [export] true. *)
Theorem export_gate (o : object) :
  o !! "export" = None →
  optional TBoolean (o !! "forceDevExport") = true →
  (get (resolve development o) "export" = VBool true
   ↔ get o "forceDevExport" = VBool true)
  ∧ (get (resolve development o) "export" = VBool false
     ↔ get o "forceDevExport" ≠ VBool true)
  ∧ get (resolve development ∅) "export" = VBool false
  ∧ get (resolve production o) "export" = VBool true.
Proof.
  intros Hex Hty.
  assert (Hdev : get (resolve development o) "export"
                 = VBool (to_boolean (get o "forceDevExport"))).
  { rewrite resolve_spread, get_spread, Hex. unfold get.
    cbn [TelemetryConfigs.base isDevEnv]. rewrite development_export.
    reflexivity. }
  pose proof (optional_boolean_truthy o "forceDevExport" Hty) as Htruthy.
  rewrite Hdev. repeat split.
  - intros [= H]. by apply Htruthy.
  - intros H. f_equal. by apply Htruthy.
  - intros [= H] H'. apply Htruthy in H'. congruence.
  - intros H. f_equal. apply not_true_is_false. intros H'. by apply H, Htruthy.
  - rewrite resolve_spread, get_spread, Hex. reflexivity.
Qed.

Lemma export_gate_witness :
  get (resolve development {[ "forceDevExport" := VBool true ]}) "export"
  = VBool true
  ∧ get (resolve production {[ "forceDevExport" := VBool true ]}) "export"
    = VBool true.
Proof.
  destruct (export_gate {[ "forceDevExport" := VBool true ]})
    as (Hdev & _ & _ & Hprod); [reflexivity | reflexivity |].
  split; [apply Hdev; reflexivity | exact Hprod].
Defined.

(** ** Completeness of the result *)

(** Every property of [GcpTelemetryConfig] is a property of the result,
    whatever the overrides. *)
Lemma resolve_has_field (e : environment) (o : object) (f : string) :
  In f GcpTelemetryConfig_fields → is_Some (resolve e o !! f).
Proof.
  intros Hf. rewrite resolve_spread, lookup_spread.
  destruct (o !! f); [by eexists |]. by apply base_has_field.
Qed.

Lemma base_field_defined (e : environment) (o : object) (f : string) :
  In f GcpTelemetryConfig_fields →
  is_defined (get (TelemetryConfigs.base e o) f) = true.
Proof.
  intros Hf. simpl in Hf.
  destruct e; repeat (destruct Hf as [<- | Hf]; [reflexivity |]); destruct Hf.
Qed.

(** C3, as stated, fails: an override record may carry a property whose value
    is [undefined] (the interface allows it), the spread copies it over the
    default, and the result then has an undefined [sampler]. *)
Lemma completeness_counterexample :
  GcpTelemetryConfigOptions {[ "sampler" := VUndefined ]} = true
  ∧ get (resolve production {[ "sampler" := VUndefined ]}) "sampler" = VUndefined
  ∧ complete (resolve production {[ "sampler" := VUndefined ]}) = false.
Proof. repeat split. Qed.

(** C3, amended. In either environment, for an override record that carries
    no property of [GcpTelemetryConfig] with the value [undefined], every
    property of [GcpTelemetryConfig] (sampler, autoInstrumentation,
    autoInstrumentationConfig, instrumentations, metricExportIntervalMillis,
    metricExportTimeoutMillis, disableMetrics, disableTraces, export) has a
    defined value in the resolved record. *)
Theorem completeness (e : environment) (o : object) :
  (∀ f, In f GcpTelemetryConfig_fields → o !! f ≠ Some VUndefined) →
  complete (resolve e o) = true.
Proof.
  intros Ho. unfold complete. apply forallb_forall. intros f Hf.
  rewrite resolve_spread, get_spread.
  specialize (Ho f Hf).
  destruct (o !! f) as [v |].
  - destruct v; try reflexivity. congruence.
  - by apply base_field_defined.
Qed.

Lemma completeness_witness :
  complete (resolve development {[ "disableMetrics" := VBool true ]}) = true.
Proof.
  apply (completeness development {[ "disableMetrics" := VBool true ]}).
  intros f Hf. simpl in Hf.
  repeat (destruct Hf as [<- | Hf]; [discriminate |]). destruct Hf.
Defined.

(** Under the same condition a well-typed override record without a
    property [export] resolves to a record of the declared result type. *)
Lemma required_spread (t : ty) (a o : object) (f : string) :
  optional t (o !! f) = true → o !! f ≠ Some VUndefined →
  required t (a !! f) = true → required t (spread a o !! f) = true.
Proof.
  rewrite lookup_spread. destruct (o !! f) as [v |]; [| done].
  destruct v; simpl; congruence.
Qed.

(** X6. The declared result type holds under these conditions: an override
    record of type [GcpTelemetryConfigOptions] that carries no property of
    [GcpTelemetryConfig] with the value [undefined] and has no property
    [export] resolves, in either environment, to a record of type
    [GcpTelemetryConfig]. *)
Lemma resolve_well_typed (e : environment) (o : object) :
  GcpTelemetryConfigOptions o = true →
  (∀ f, In f GcpTelemetryConfig_fields → o !! f ≠ Some VUndefined) →
  o !! "export" = None →
  GcpTelemetryConfig (resolve e o) = true.
Proof.
  unfold GcpTelemetryConfigOptions, GcpTelemetryConfig.
  rewrite !andb_true_iff. intros Hty Hdef Hex. rewrite resolve_spread.
  assert (Hexport :
    required TBoolean (spread (TelemetryConfigs.base e o) o !! "export") = true).
  { rewrite lookup_spread, Hex. destruct e; [| reflexivity].
    cbn [TelemetryConfigs.base isDevEnv]. by rewrite development_export. }
  repeat split; try exact Hexport;
    (apply required_spread;
     [ tauto
     | apply Hdef; simpl; tauto
     | destruct e; reflexivity ]).
Qed.

(** ** The literal defaults *)

(** C4. Metric export cadence defaults: with no overrides the production
    interval is 300000 and the development interval is 5000, and both are
    integers above zero. *)
Theorem metric_export_interval_defaults :
  get (resolve production ∅) "metricExportIntervalMillis" = VNumber (Int 300000)
  ∧ get (resolve development ∅) "metricExportIntervalMillis" = VNumber (Int 5000)
  ∧ is_positive_integer
      (get (resolve production ∅) "metricExportIntervalMillis") = true
  ∧ is_positive_integer
      (get (resolve development ∅) "metricExportIntervalMillis") = true.
Proof. repeat split. Qed.

(** ** No validation *)

(** C5. Resolution is total and validates nothing: for either environment
    and any override record, also for no argument at all, the call yields a
    record, and that record contains every entry of the override record as it
    was given, whatever its name and whatever its value; a negative interval
    and a property no interface knows are two instances.  In the store model,
    where a computation can fail, the call returns for every argument a caller
    can pass, and the object it returns has every property of the override
    object. *)
Theorem resolution_total_unvalidated (e : environment) (o : object) :
  (∃ c, TelemetryConfigs.defaults e (Some o) = c ∧ o ⊆ c)
  ∧ (∃ c, TelemetryConfigs.defaults e None = c)
  ∧ (∀ f v, get (resolve e (<[ f := v ]> o)) f = v)
  ∧ get (resolve e (<[ "metricExportIntervalMillis" := VNumber (Int (-1)) ]> o))
        "metricExportIntervalMillis" = VNumber (Int (-1))
  ∧ get (resolve e (<[ "notAnOption" := VString "x" ]> o)) "notAnOption"
    = VString "x"
  ∧ (∀ (h : Store.heap) arg,
       Store.is_argument h arg → is_Some (Store.defaults e arg h))
  ∧ (∀ (h : Store.heap) l cls p,
       h !! l = Some (Store.Object cls p) →
       ∃ r h' q, Store.defaults e (Store.RRef l) h = Some (Store.RRef r, h')
                 ∧ h' !! r = Some (Store.Object "Object" q)
                 ∧ p ⊆ q).
Proof.
  assert (Hget : ∀ f v, get (resolve e (<[ f := v ]> o)) f = v).
  { intros f v. rewrite resolve_spread, get_spread, lookup_insert_eq.
    reflexivity. }
  repeat split; try apply Hget.
  - exists (resolve e o). split; [reflexivity |].
    rewrite resolve_spread. apply map_union_subseteq_l.
  - eexists; reflexivity.
  - intros h arg [-> | (l & cls & p & -> & Hl)].
    + rewrite run_defaults_undefined. by eexists.
    + rewrite (run_defaults e h l cls p Hl). by eexists.
  - intros h l cls p Hl.
    exists (5 + length h)%nat, (h ++ Store.allocated e (length h) p)%list,
           (p ∪ Store.base_props e (length h) p).
    split; [by apply run_defaults with cls |].
    split; [| apply map_union_subseteq_l].
    rewrite <- (app_nil_r (Store.allocated e (length h) p)).
    exact (lookup_allocated e h [] p 5 _ eq_refl).
Qed.

Lemma resolution_total_unvalidated_witness :
  is_Some (Store.defaults production Store.RUndefined [])
  ∧ get (resolve production {[ "metricExportIntervalMillis" := VNumber (Int (-5)) ]})
        "metricExportIntervalMillis" = VNumber (Int (-5)).
Proof.
  destruct (resolution_total_unvalidated production ∅)
    as (_ & _ & Hget & _ & _ & Hreturns & _).
  split.
  - apply Hreturns. by left.
  - exact (Hget "metricExportIntervalMillis" (VNumber (Int (-5)))).
Defined.

(** ** Purity *)

Section Purity.

Import Store.

(** C6. Resolution is pure: a call with an argument a caller can pass (nothing,
    or a reference to an override object) returns, and all it does to the
    store is to add cells at its end, so every object that existed before the
    call, the override object among them, is as it was.  A second call in the
    same environment with the same argument, made at any later time in which
    the store has only grown (by [k]), returns an object other than that of
    the first call, and the two results are structurally equal. *)
Theorem resolution_pure (e : environment) (h k : heap) (arg : val) :
  is_argument h arg →
  ∃ r1 h1 r2 h2,
    defaults e arg h = Some (r1, h1)
    ∧ defaults e arg (h1 ++ k)%list = Some (r2, h2)
    ∧ h `prefix_of` h1
    ∧ (h1 ++ k)%list `prefix_of` h2
    ∧ (∀ l c, h !! l = Some c → h2 !! l = Some c)
    ∧ deep_equal h2 r1 r2
    ∧ r1 ≠ r2.
Proof.
  intros [-> | (l & cls & p & -> & Hl)].
  - (* no argument: each call makes its own empty object first *)
    set (h0 := (h ++ [Object "Object" ∅])%list).
    set (h1 := (h0 ++ allocated e (length h0) ∅)%list).
    set (g0 := ((h1 ++ k) ++ [Object "Object" ∅])%list).
    set (h2 := (g0 ++ allocated e (length g0) ∅)%list).
    assert (E1 : defaults e RUndefined h = Some (RRef (5 + length h0), h1)).
    { rewrite run_defaults_undefined. unfold h1, h0.
      rewrite length_snoc, <- app_assoc. reflexivity. }
    assert (E2 : defaults e RUndefined (h1 ++ k)%list
                 = Some (RRef (5 + length g0), h2)).
    { rewrite run_defaults_undefined. unfold h2, g0.
      rewrite length_snoc, <- (app_assoc (h1 ++ k)). reflexivity. }
    assert (H1 : ∀ i c, allocated e (length h0) ∅ !! i = Some c →
                        h2 !! (i + length h0)%nat = Some c).
    { intros i c Hi. unfold h2, g0, h1. rewrite <- !app_assoc.
      by apply lookup_allocated. }
    assert (H2 : ∀ i c, allocated e (length g0) ∅ !! i = Some c →
                        h2 !! (i + length g0)%nat = Some c).
    { intros i c Hi. unfold h2.
      rewrite <- (app_nil_r (allocated e (length g0) ∅)).
      by apply lookup_allocated. }
    exists (RRef (5 + length h0)), h1, (RRef (5 + length g0)), h2.
    repeat split; try assumption.
    + exists ([Object "Object" ∅] ++ allocated e (length h0) ∅)%list.
      unfold h1, h0. by rewrite <- app_assoc.
    + exists ([Object "Object" ∅] ++ allocated e (length g0) ∅)%list.
      unfold h2, g0. by rewrite <- app_assoc.
    + intros l c Hl. unfold h2, g0, h1, h0.
      by repeat apply lookup_app_l_Some.
    + by apply results_deep_equal with e ∅.
    + intros [= Heq]. unfold g0, h1 in Heq.
      rewrite !length_app in Heq. simpl in Heq. lia.
  - (* an override object: both calls read the same properties *)
    set (h1 := (h ++ allocated e (length h) p)%list).
    set (h2 := ((h1 ++ k) ++ allocated e (length (h1 ++ k)) p)%list).
    assert (Hl' : (h1 ++ k)%list !! l = Some (Object cls p)).
    { unfold h1. by repeat apply lookup_app_l_Some. }
    assert (H1 : ∀ i c, allocated e (length h) p !! i = Some c →
                        h2 !! (i + length h)%nat = Some c).
    { intros i c Hi. unfold h2, h1. rewrite <- !app_assoc.
      by apply lookup_allocated. }
    assert (H2 : ∀ i c, allocated e (length (h1 ++ k)) p !! i = Some c →
                        h2 !! (i + length (h1 ++ k))%nat = Some c).
    { intros i c Hi. unfold h2.
      rewrite <- (app_nil_r (allocated e (length (h1 ++ k)) p)).
      by apply lookup_allocated. }
    exists (RRef (5 + length h)), h1, (RRef (5 + length (h1 ++ k))), h2.
    repeat split.
    + by apply run_defaults with cls.
    + by apply run_defaults with cls.
    + by exists (allocated e (length h) p).
    + by exists (allocated e (length (h1 ++ k)) p).
    + intros l' c Hc. unfold h2, h1. by repeat apply lookup_app_l_Some.
    + by apply results_deep_equal with e p.
    + intros [= Heq]. unfold h1 in Heq.
      rewrite !length_app in Heq. simpl in Heq. lia.
Qed.

(** A store with one override object, [{ forceDevExport: true }], at
    location 0. *)
Lemma resolution_pure_witness :
  ∃ r1 h1 r2 h2,
    defaults development (RRef 0)
      [Object "Object" {[ "forceDevExport" := RBool true ]}] = Some (r1, h1)
    ∧ defaults development (RRef 0) (h1 ++ [])%list = Some (r2, h2)
    ∧ [Object "Object" {[ "forceDevExport" := RBool true ]}] `prefix_of` h1
    ∧ (h1 ++ [])%list `prefix_of` h2
    ∧ (∀ l c, [Object "Object" {[ "forceDevExport" := RBool true ]}] !! l = Some c
              → h2 !! l = Some c)
    ∧ deep_equal h2 r1 r2
    ∧ r1 ≠ r2.
Proof.
  apply (resolution_pure development
           [Object "Object" {[ "forceDevExport" := RBool true ]}] [] (RRef 0)).
  right. exists 0%nat, "Object", {[ "forceDevExport" := RBool true ]}.
  split; reflexivity.
Defined.

End Purity.

(** ** Shallow merge *)

(** C7. Shallow merge: in either environment, when the override record has
    an [autoInstrumentationConfig] the resolved record has exactly that value
    there: its entries are the caller's entries, and the default entry for the
    DNS instrumentation is there only if the caller's mapping has one. *)
Theorem shallow_merge (e : environment) (o : object) (v : value) :
  o !! "autoInstrumentationConfig" = Some v →
  get (resolve e o) "autoInstrumentationConfig" = v
  ∧ (∀ k, entries (get (resolve e o) "autoInstrumentationConfig") !! k
          = entries v !! k)
  ∧ (entries v !! "@opentelemetry/instrumentation-dns" = None →
     entries (get (resolve e o) "autoInstrumentationConfig")
       !! "@opentelemetry/instrumentation-dns" = None).
Proof.
  intros Hv.
  assert (Hget : get (resolve e o) "autoInstrumentationConfig" = v).
  { rewrite resolve_spread, get_spread, Hv. reflexivity. }
  rewrite Hget. repeat split; auto.
Qed.

Lemma shallow_merge_witness :
  get (resolve development
         {[ "autoInstrumentationConfig" :=
              literal {[ "@opentelemetry/instrumentation-http" :=
                           literal {[ "enabled" := VBool false ]} ]} ]})
      "autoInstrumentationConfig"
  = literal {[ "@opentelemetry/instrumentation-http" :=
                 literal {[ "enabled" := VBool false ]} ]}.
Proof.
  apply (shallow_merge development
           {[ "autoInstrumentationConfig" :=
                literal {[ "@opentelemetry/instrumentation-http" :=
                             literal {[ "enabled" := VBool false ]} ]} ]}).
  reflexivity.
Defined.

(** The default mapping does have the DNS entry, so the wholesale
    replacement above loses it. *)
Example default_mapping_disables_dns (e : environment) :
  entries (get (resolve e ∅) "autoInstrumentationConfig")
    !! "@opentelemetry/instrumentation-dns"
  = Some (literal {[ "enabled" := VBool false ]}).
Proof. destruct e; reflexivity. Qed.

(** ** The logger *)

(** C8. The logger is gated on [export]: when the [export] property of the
    resolved configuration is [true], [getLogger] takes the JSON format and
    the Cloud Logging transport, when it is [false] the printf format and the
    console transport; a stream registered for testing follows either. *)
Theorem logger_gated_on_export {JWTInput Writable : Type}
    (this : GcpLogger JWTInput)
    (additionalStream : option Writable) (env : option string) :
  let logger := getLogger this additionalStream env in
  let extra := match additionalStream with
               | Some s => [Stream s]
               | None => []
               end in
  (get (telemetryConfig (config this)) "export" = VBool true →
   format logger = format_json
   ∧ transports logger =
       LoggingWinston {| lw_projectId := projectId (config this);
                         lw_labels := [("module", "genkit")];
                         lw_prefix := "genkit";
                         lw_logName := "genkit_log";
                         lw_credentials := credentials (config this) |} :: extra)
  ∧ (get (telemetryConfig (config this)) "export" = VBool false →
     format logger = format_printf printf_template
     ∧ transports logger = Console :: extra).
Proof.
  unfold getLogger. cbn zeta.
  split; intros ->; cbn [to_boolean format transports];
    destruct additionalStream; split; reflexivity.
Qed.

(** The logger over the production defaults and over the development
    defaults of [resolve]. *)
Lemma logger_gated_on_export_witness :
  format (getLogger (JWTInput := unit) (Writable := unit)
            {| config := {| projectId := Some "p";
                            telemetryConfig := resolve production ∅;
                            credentials := None |} |} None None) = format_json
  ∧ transports (getLogger (JWTInput := unit) (Writable := unit)
            {| config := {| projectId := Some "p";
                            telemetryConfig := resolve development ∅;
                            credentials := None |} |} None None) = [Console].
Proof.
  split.
  - apply (logger_gated_on_export (JWTInput := unit) (Writable := unit)
             {| config := {| projectId := Some "p";
                             telemetryConfig := resolve production ∅;
                             credentials := None |} |} None None).
    reflexivity.
  - apply (logger_gated_on_export (JWTInput := unit) (Writable := unit)
             {| config := {| projectId := Some "p";
                             telemetryConfig := resolve development ∅;
                             credentials := None |} |} None None).
    reflexivity.
Defined.

(** After [__addTransportStreamForTesting(stream)] the stream is the second
    transport, behind the one chosen by [export]. *)
Example logger_with_test_stream :
  transports (getLogger (JWTInput := unit)
                {| config := {| projectId := None;
                                telemetryConfig := resolve development ∅;
                                credentials := None |} |}
                (__addTransportStreamForTesting 7%nat None) None)
  = [Console; Stream 7%nat].
Proof. reflexivity. Qed.

(** The printf format prints the level in brackets before the message. *)
Example printf_template_example :
  printf_template {| level := "info"; message := "flow started" |}
  = "[info] flow started".
Proof. reflexivity. Qed.

(** ** More on the literal defaults *)

(** C9. In the defaults of both environments the metric export timeout
    equals the metric export interval: 5000 in development, 300000 in
    production. *)
Theorem metric_export_timeout_defaults :
  get (resolve development ∅) "metricExportTimeoutMillis" = VNumber (Int 5000)
  ∧ get (resolve production ∅) "metricExportTimeoutMillis" = VNumber (Int 300000)
  ∧ ∀ e, get (resolve e ∅) "metricExportTimeoutMillis"
         = get (resolve e ∅) "metricExportIntervalMillis".
Proof. repeat split. intros []; reflexivity. Qed.

(** ** forceDevExport in production *)

(** C10. In production [forceDevExport] has no effect on [export]: for an
    override record without an [export] property the production result has
    [export] true, also when [forceDevExport] is given, as [true], [false] or
    anything else; only the development branch reads it. *)
Theorem forceDevExport_production (o : object) :
  o !! "export" = None →
  get (TelemetryConfigs.productionDefaults (Some o)) "export" = VBool true
  ∧ (∀ v, get (TelemetryConfigs.productionDefaults
                 (Some (<[ "forceDevExport" := v ]> o))) "export" = VBool true)
  ∧ get (TelemetryConfigs.developmentDefaults
           (Some (<[ "forceDevExport" := VBool true ]> o))) "export"
    ≠ get (TelemetryConfigs.developmentDefaults
             (Some (<[ "forceDevExport" := VBool false ]> o))) "export".
Proof.
  intros Hex.
  unfold TelemetryConfigs.productionDefaults, TelemetryConfigs.developmentDefaults.
  cbn [from_option id]. cbv zeta. split; [| split].
  - rewrite get_spread, Hex. reflexivity.
  - intros v. rewrite get_spread, lookup_insert_ne, Hex by discriminate.
    reflexivity.
  - rewrite !get_spread, !lookup_insert_ne, Hex by discriminate.
    unfold get. rewrite !development_export. unfold get.
    rewrite !lookup_insert_eq. discriminate.
Qed.

Lemma forceDevExport_production_witness :
  get (TelemetryConfigs.productionDefaults
         (Some {[ "forceDevExport" := VBool false ]})) "export" = VBool true.
Proof.
  apply (forceDevExport_production {[ "forceDevExport" := VBool false ]}).
  reflexivity.
Defined.

(** * Further properties of the code *)

#[local] Set Warnings "-clear-no-such-hyp".

(** ** What a resolved configuration consists of *)

Lemma base_dom (e : environment) (o : object) (f : string) :
  f ∈ dom (TelemetryConfigs.base e o) ↔ In f GcpTelemetryConfig_fields.
Proof.
  rewrite elem_of_dom. split.
  - intros [v Hv]. revert Hv.
    destruct e; unfold TelemetryConfigs.base; cbn [isDevEnv];
      unfold TelemetryConfigs.developmentBase, TelemetryConfigs.productionBase;
      rewrite !lookup_insert, lookup_singleton;
      repeat (case_decide; [subst f; simpl; tauto |]);
      discriminate.
  - apply base_has_field.
Qed.

Lemma resolve_lookup_None (e : environment) (o : object) (f : string) :
  resolve e o !! f = None ↔ o !! f = None ∧ ¬ In f GcpTelemetryConfig_fields.
Proof.
  rewrite resolve_spread, lookup_spread, <- (base_dom e o f).
  rewrite elem_of_dom, <- eq_None_not_Some.
  destruct (o !! f); split; try tauto; try discriminate.
Qed.

(** X1. The resolved record has the properties of the override record and
    the nine of [GcpTelemetryConfig], and no others; in particular
    [forceDevExport], which is no property of [GcpTelemetryConfig], is in the
    result exactly when it was given. *)
Theorem resolve_properties (e : environment) (o : object) (f : string) :
  (is_Some (resolve e o !! f)
   ↔ is_Some (o !! f) ∨ In f GcpTelemetryConfig_fields)
  ∧ resolve e o !! "forceDevExport" = o !! "forceDevExport".
Proof.
  split.
  - rewrite <- !not_eq_None_Some, resolve_lookup_None.
    destruct (decide (In f GcpTelemetryConfig_fields)); [tauto |].
    destruct (o !! f); split; try tauto; intuition congruence.
  - rewrite resolve_spread, lookup_spread.
    destruct (o !! "forceDevExport") eqn:Hv; [reflexivity |].
    apply not_elem_of_dom. rewrite base_dom. simpl.
    intuition discriminate.
Qed.

(** X2. Resolving a resolved record changes nothing: every default is
    already there, and the development value of [export] is not computed
    again over the one that is there. *)
Theorem resolve_idempotent (e : environment) (o : object) :
  resolve e (resolve e o) = resolve e o.
Proof.
  rewrite (resolve_spread e (resolve e o)). unfold spread.
  apply map_eq. intros f. rewrite lookup_union.
  destruct (resolve e o !! f) as [v |] eqn:Hf.
  - by destruct (TelemetryConfigs.base e (resolve e o) !! f).
  - apply resolve_lookup_None in Hf as [_ Hf].
    assert (Hb : TelemetryConfigs.base e (resolve e o) !! f = None).
    { apply not_elem_of_dom. by rewrite base_dom. }
    by rewrite Hb.
Qed.

(** X3. Overrides can be applied in two layers: resolving [o1] and then
    spreading [o2] over the result gives what resolving the merged record
    gives, as long as the second layer does not bring a [forceDevExport] into
    a development configuration, whose [export] default would have had to be
    computed from it. *)
Theorem resolve_layers (e : environment) (o1 o2 : object) :
  e = production ∨ o2 !! "forceDevExport" = None →
  resolve e (spread o1 o2) = spread (resolve e o1) o2.
Proof.
  intros He. rewrite !resolve_spread. unfold spread.
  rewrite <- (assoc_L (∪)). f_equal.
  destruct He as [-> | Hforce]; [reflexivity |].
  destruct e; [| reflexivity].
  unfold TelemetryConfigs.base; cbn [isDevEnv].
  unfold TelemetryConfigs.developmentBase, get.
  by rewrite lookup_union, Hforce, (left_id_L None _).
Qed.

Lemma resolve_layers_witness :
  resolve development
    (spread {[ "forceDevExport" := VBool true ]} {[ "disableTraces" := VBool true ]})
  = spread (resolve development {[ "forceDevExport" := VBool true ]})
           {[ "disableTraces" := VBool true ]}.
Proof.
  apply (resolve_layers development {[ "forceDevExport" := VBool true ]}
           {[ "disableTraces" := VBool true ]}).
  right. reflexivity.
Defined.

(** Without the condition the two differ: a [forceDevExport] that arrives
    with the second layer is too late for [export]. *)
Example resolve_layers_forceDevExport_late :
  get (resolve development (spread ∅ {[ "forceDevExport" := VBool true ]}))
      "export" = VBool true
  ∧ get (spread (resolve development ∅) {[ "forceDevExport" := VBool true ]})
        "export" = VBool false.
Proof. split; reflexivity. Qed.

(** X4. The two environments differ in three properties only: whatever the
    overrides, every property other than [metricExportIntervalMillis],
    [metricExportTimeoutMillis] and [export] is resolved alike in development
    and in production. *)
Theorem environments_differ_in_three (o : object) (f : string) :
  f ≠ "metricExportIntervalMillis" →
  f ≠ "metricExportTimeoutMillis" →
  f ≠ "export" →
  resolve development o !! f = resolve production o !! f.
Proof.
  intros H1 H2 H3. rewrite !resolve_spread, !lookup_spread.
  destruct (o !! f); [reflexivity |].
  unfold TelemetryConfigs.base; cbn [isDevEnv].
  unfold TelemetryConfigs.developmentBase, TelemetryConfigs.productionBase.
  rewrite !lookup_insert, !lookup_singleton.
  repeat (case_decide; [first [reflexivity | congruence] |]).
  reflexivity.
Qed.

Lemma environments_differ_in_three_witness :
  resolve development {[ "disableMetrics" := VBool true ]} !! "sampler"
  = resolve production {[ "disableMetrics" := VBool true ]} !! "sampler".
Proof.
  apply (environments_differ_in_three {[ "disableMetrics" := VBool true ]}
           "sampler"); discriminate.
Defined.

(** X5. [forceDevExport] is read by truthiness: in development, when [export]
    is not overridden, the resolved [export] is a boolean, true for every
    truthy [forceDevExport] (a non-zero number, a non-empty string, an object
    as well as [true]) and false for every falsy one (missing, [undefined],
    [null], [false], zero, [NaN], the empty string). *)
Theorem forceDevExport_truthiness (o : object) :
  o !! "export" = None →
  get (resolve development o) "export"
  = VBool (to_boolean (get o "forceDevExport"))
  ∧ (∀ z, get o "forceDevExport" = VNumber (Int z) → z ≠ 0%Z →
          get (resolve development o) "export" = VBool true)
  ∧ (∀ s, get o "forceDevExport" = VString s → s ≠ "" →
          get (resolve development o) "export" = VBool true)
  ∧ (∀ cls props, get o "forceDevExport" = VObject cls props →
          get (resolve development o) "export" = VBool true)
  ∧ (get o "forceDevExport" ∈
       [VUndefined; VNull; VBool false; VNumber (Int 0); VNumber NaN; VString ""] →
     get (resolve development o) "export" = VBool false).
Proof.
  intros Hex.
  assert (Hdev : get (resolve development o) "export"
                 = VBool (to_boolean (get o "forceDevExport"))).
  { rewrite resolve_spread, get_spread, Hex. unfold get at 1.
    cbn [TelemetryConfigs.base isDevEnv]. by rewrite development_export. }
  rewrite Hdev. repeat split.
  - intros z -> Hz. simpl. f_equal. apply negb_true_iff. by apply Z.eqb_neq.
  - intros s -> Hs. simpl. f_equal. apply negb_true_iff. by apply String.eqb_neq.
  - by intros cls props ->.
  - intros Hin. repeat (apply elem_of_cons in Hin as [-> | Hin]; [reflexivity |]).
    by apply elem_of_nil in Hin.
Qed.

Lemma forceDevExport_truthiness_witness :
  get (resolve development {[ "forceDevExport" := VNumber (Int 1) ]}) "export"
  = VBool true.
Proof.
  destruct (forceDevExport_truthiness {[ "forceDevExport" := VNumber (Int 1) ]})
    as (_ & Hnum & _); [reflexivity |].
  apply (Hnum 1%Z); [reflexivity | discriminate].
Defined.

(** A well-typed record that overrides two properties. *)
Lemma resolve_well_typed_witness :
  GcpTelemetryConfig
    (resolve production {[ "disableTraces" := VBool true;
                           "metricExportIntervalMillis" := VNumber (Int 10000) ]})
  = true.
Proof.
  apply (resolve_well_typed production
           {[ "disableTraces" := VBool true;
              "metricExportIntervalMillis" := VNumber (Int 10000) ]}).
  - reflexivity.
  - intros f Hf. simpl in Hf.
    repeat (destruct Hf as [<- | Hf]; [discriminate |]). destruct Hf.
  - reflexivity.
Defined.

(** ** The logger, for every configuration *)

(** X7. Format and transport of a logger always go together, whatever value
    [export] has: the format is JSON exactly when [export] is truthy and
    exactly when the Cloud Logging transport is among the transports; it is
    the printf format exactly when the console transport is; the two
    transports never occur together; a stream transport is there exactly for
    the registered stream; and there are one or two transports. *)
Theorem logger_format_matches_transport {JWTInput Writable : Type}
    (this : GcpLogger JWTInput)
    (additionalStream : option Writable) (env : option string) :
  let logger := getLogger this additionalStream env in
  let cloud :=
    LoggingWinston {| lw_projectId := projectId (config this);
                      lw_labels := [("module", "genkit")];
                      lw_prefix := "genkit";
                      lw_logName := "genkit_log";
                      lw_credentials := credentials (config this) |} in
  (format logger = format_json
   ↔ to_boolean (get (telemetryConfig (config this)) "export") = true)
  ∧ (format logger = format_json ↔ cloud ∈ transports logger)
  ∧ (format logger = format_printf printf_template
     ↔ Console ∈ transports logger)
  ∧ ¬ (Console ∈ transports logger
       ∧ ∃ options, LoggingWinston options ∈ transports logger)
  ∧ (∀ s, Stream s ∈ transports logger ↔ additionalStream = Some s)
  ∧ length (transports logger)
    = match additionalStream with Some _ => 2 | None => 1 end.
Proof.
  unfold getLogger. cbn zeta.
  destruct (to_boolean (get (telemetryConfig (config this)) "export"));
    destruct additionalStream as [s0 |]; cbn [format transports app length];
    repeat split; try done;
    repeat (setoid_rewrite elem_of_cons || setoid_rewrite elem_of_nil);
    naive_solver.
Qed.

(** X8. Registering test streams: the last registration wins, the logger
    built afterwards writes to that stream and to none of the earlier ones,
    and no call takes a registered stream away. *)
Theorem last_registered_stream_wins {JWTInput Writable : Type}
    (this : GcpLogger JWTInput) (streams : list Writable) (stream : Writable)
    (additionalStream : option Writable) (env : option string) :
  register_streams (streams ++ [stream])%list additionalStream = Some stream
  ∧ (∀ s, Stream s ∈ transports
            (getLogger this
               (register_streams (streams ++ [stream])%list additionalStream) env)
          ↔ s = stream)
  ∧ (is_Some additionalStream →
     is_Some (register_streams streams additionalStream)).
Proof.
  assert (Hlast : register_streams (streams ++ [stream])%list additionalStream
                  = Some stream).
  { unfold register_streams. by rewrite foldl_app. }
  split; [exact Hlast |]. split.
  - intros s. rewrite Hlast. unfold getLogger. cbn zeta.
    cbn [transports app].
    destruct (to_boolean (get (telemetryConfig (config this)) "export"));
      repeat (setoid_rewrite elem_of_cons || setoid_rewrite elem_of_nil);
      naive_solver.
  - intros Hsome. unfold register_streams.
    induction streams as [| s ss IH] using rev_ind; [exact Hsome |].
    rewrite foldl_app. by eexists.
Qed.

(** ** The plugin initialisers *)

Section PluginProperties.

Context {error : Type}.

Implicit Types (w : World error) (e : environment) (env : gmap string string).

Lemma bind_Ok {A B} (m : outcome error A) (f : A → outcome error B) (b : B) :
  m ≫= f = Ok b ↔ ∃ a, m = Ok a ∧ f a = Ok b.
Proof.
  destruct m as [a | err]; simpl; split.
  - intros H. by exists a.
  - by intros (a' & [= ->] & H).
  - discriminate.
  - by intros (a' & [=] & _).
Qed.

Lemma ret_bind {A B} (a : A) (f : A → outcome error B) : Ok a ≫= f = f a.
Proof. reflexivity. Qed.

Lemma bind_Throw {A B} (m : outcome error A) (f : A → outcome error B)
    (err : error) :
  m ≫= f = Throw err ↔ m = Throw err ∨ ∃ a, m = Ok a ∧ f a = Throw err.
Proof.
  destruct m as [a | err']; simpl; split.
  - intros H. right. by exists a.
  - by intros [[=] | (a' & [= ->] & H)].
  - intros [= ->]. by left.
  - by intros [[= ->] | (a' & [=] & _)].
Qed.

(** What a successful [googleCloud] went through and what it built. *)
Lemma googleCloud_Ok w e env options out :
  googleCloud w e env options = Ok out →
  ∃ authClient loaded pid,
    load_credentials w env = Ok (authClient, loaded)
    ∧ projectId_or_lookup w authClient (optional_chain options o_projectId)
      = Ok pid
    ∧ config (provider_value (logger (gc_telemetry out)))
      = {| projectId := Some pid;
           telemetryConfig :=
             TelemetryConfigs.defaults e (optional_chain options o_telemetryConfig);
           credentials := optional_chain options o_credentials |}
    ∧ otel_config (provider_value (instrumentation (gc_telemetry out)))
      = config (provider_value (logger (gc_telemetry out))).
Proof.
  unfold googleCloud. intros H.
  apply bind_Ok in H as ([authClient loaded] & Hload & H).
  apply bind_Ok in H as (pid & Hpid & [= <-]).
  by exists authClient, loaded, pid.
Qed.

(** What a successful [firebase] went through and what it built. *)
Lemma firebase_Ok w e env params out :
  firebase w e env params = Ok out →
  ∃ authClient loaded pid,
    load_credentials w env = Ok (authClient, loaded)
    ∧ projectId_or_lookup w authClient (optional_chain params p_projectId)
      = Ok pid
    ∧ config (provider_value (logger (fb_telemetry out)))
      = {| projectId := Some pid;
           telemetryConfig :=
             TelemetryConfigs.defaults e (optional_chain params p_telemetryConfig);
           credentials := loaded |}
    ∧ otel_config (provider_value (instrumentation (fb_telemetry out)))
      = config (provider_value (logger (fb_telemetry out)))
    ∧ provider_value (fb_flowStateStore out)
      = spread_optional {[ "projectId" := VString pid;
                           "credentials" := or_undefined loaded ]}
                        (optional_chain params p_flowStateStore)
    ∧ provider_value (fb_traceStore out)
      = spread_optional {[ "projectId" := VString pid;
                           "credentials" := or_undefined loaded ]}
                        (optional_chain params p_traceStore).
Proof.
  unfold firebase. intros H.
  apply bind_Ok in H as ([authClient loaded] & Hload & H).
  apply bind_Ok in H as (pid & Hpid & [= <-]).
  by exists authClient, loaded, pid.
Qed.

(** The credentials [load_credentials] ends with. *)
Lemma load_credentials_Ok w env authClient loaded :
  load_credentials w env = Ok (authClient, loaded) →
  match env_truthy (env !! "GCLOUD_SERVICE_ACCOUNT_CREDS") with
  | None => authClient = {| authOptions := None |} ∧ loaded = None
  | Some text =>
      ∃ parsed c,
        JSON_parse w text = Ok parsed
        ∧ authClient = {| authOptions := Some {| ao_credentials := parsed |} |}
        ∧ getCredentials w authClient = Ok c
        ∧ loaded = Some c
  end.
Proof.
  unfold load_credentials.
  destruct (env_truthy (env !! "GCLOUD_SERVICE_ACCOUNT_CREDS")) as [text |].
  - intros H. apply bind_Ok in H as (parsed & Hparse & H).
    apply bind_Ok in H as (c & Hc & [= <- <-]).
    by exists parsed, c.
  - by intros [= <- <-].
Qed.

(** X9. The configuration [googleCloud] builds carries the credentials of
    the options and nothing else: those it obtains through
    GCLOUD_SERVICE_ACCOUNT_CREDS are assigned to a local variable and not
    used, so without [options.credentials] the configuration has none, also
    when the variable is set and the auth client returned credentials.
    Tracing and logging are built from one and the same configuration. *)
Theorem googleCloud_credentials_from_options w e env options out :
  googleCloud w e env options = Ok out →
  credentials (config (provider_value (logger (gc_telemetry out))))
  = optional_chain options o_credentials
  ∧ (optional_chain options o_credentials = None →
     credentials (otel_config (provider_value (instrumentation (gc_telemetry out))))
     = None)
  ∧ otel_config (provider_value (instrumentation (gc_telemetry out)))
    = config (provider_value (logger (gc_telemetry out))).
Proof.
  intros H. apply googleCloud_Ok in H as (a & l & pid & _ & _ & Hcfg & Hsame).
  rewrite Hsame, Hcfg. cbn [credentials]. by repeat split.
Qed.

(** X10. The configuration [firebase] builds carries the credentials the
    auth client returned for GCLOUD_SERVICE_ACCOUNT_CREDS, and none when the
    variable is unset or empty; its parameters have no way to supply any. *)
Theorem firebase_credentials_from_environment w e env params out :
  firebase w e env params = Ok out →
  match env_truthy (env !! "GCLOUD_SERVICE_ACCOUNT_CREDS") with
  | None =>
      credentials (config (provider_value (logger (fb_telemetry out)))) = None
  | Some text =>
      ∃ parsed c,
        JSON_parse w text = Ok parsed
        ∧ getCredentials w
            {| authOptions := Some {| ao_credentials := parsed |} |} = Ok c
        ∧ credentials (config (provider_value (logger (fb_telemetry out))))
          = Some c
  end.
Proof.
  intros H. apply firebase_Ok in H as (a & l & pid & Hload & _ & Hcfg & _).
  apply load_credentials_Ok in Hload. rewrite Hcfg. cbn [credentials].
  destruct (env_truthy (env !! "GCLOUD_SERVICE_ACCOUNT_CREDS")) as [text |].
  - destruct Hload as (parsed & c & Hp & -> & Hc & ->). by exists parsed, c.
  - by destruct Hload as [_ ->].
Qed.

(** The project id both initialisers end with. *)
Lemma projectId_or_lookup_given w authClient (s : string) :
  s ≠ "" → projectId_or_lookup w authClient (Some s) = Ok s.
Proof.
  intros Hs. unfold projectId_or_lookup. simpl.
  apply String.eqb_neq in Hs. by rewrite Hs.
Qed.

Lemma projectId_or_lookup_missing w authClient (given : option string) :
  given = None ∨ given = Some "" →
  projectId_or_lookup w authClient given = getProjectId w authClient.
Proof. by intros [-> | ->]. Qed.

Lemma load_credentials_agree w w' env :
  (∀ text, JSON_parse w text = JSON_parse w' text) →
  (∀ authClient, getCredentials w authClient = getCredentials w' authClient) →
  load_credentials w env = load_credentials w' env.
Proof.
  intros Hparse Hcred. unfold load_credentials.
  destruct (env_truthy (env !! "GCLOUD_SERVICE_ACCOUNT_CREDS")); [| done].
  rewrite Hparse. destruct (JSON_parse w' s) as [parsed | err]; [| done].
  simpl. by rewrite Hcred.
Qed.

(** X11. A non-empty [projectId] in the options is the project id of the
    configuration, and the auth client is then not asked for one: the outcome
    of either initialiser is the same in any two worlds that differ only in
    what [getProjectId] would answer. *)
Theorem explicit_projectId_skips_lookup w w' e env
    (options : option GcpPluginOptions) (params : option FirestorePluginParams)
    (s : string) :
  s ≠ "" →
  (∀ text, JSON_parse w text = JSON_parse w' text) →
  (∀ authClient, getCredentials w authClient = getCredentials w' authClient) →
  (optional_chain options o_projectId = Some s →
   googleCloud w e env options = googleCloud w' e env options
   ∧ ∀ out, googleCloud w e env options = Ok out →
            projectId (config (provider_value (logger (gc_telemetry out))))
            = Some s)
  ∧ (optional_chain params p_projectId = Some s →
     firebase w e env params = firebase w' e env params
     ∧ ∀ out, firebase w e env params = Ok out →
              projectId (config (provider_value (logger (fb_telemetry out))))
              = Some s).
Proof.
  intros Hs Hparse Hcred.
  pose proof (load_credentials_agree w w' env Hparse Hcred) as Hload.
  split; intros Hgiven.
  - split.
    + unfold googleCloud. rewrite Hload, Hgiven.
      destruct (load_credentials w' env) as [[a l] | err]; [| done].
      rewrite !ret_bind. cbv beta iota.
      by rewrite !projectId_or_lookup_given.
    + intros out H.
      apply googleCloud_Ok in H as (a & l & pid & _ & Hpid & Hcfg & _).
      rewrite Hgiven, projectId_or_lookup_given in Hpid by done.
      injection Hpid as <-. by rewrite Hcfg.
  - split.
    + unfold firebase. rewrite Hload, Hgiven.
      destruct (load_credentials w' env) as [[a l] | err]; [| done].
      rewrite !ret_bind. cbv beta iota.
      by rewrite !projectId_or_lookup_given.
    + intros out H.
      apply firebase_Ok in H as (a & l & pid & _ & Hpid & Hcfg & _).
      rewrite Hgiven, projectId_or_lookup_given in Hpid by done.
      injection Hpid as <-. by rewrite Hcfg.
Qed.

(** X12. When GCLOUD_SERVICE_ACCOUNT_CREDS is set and is no JSON, or the auth
    client rejects the credentials parsed from it, both initialisers are
    rejected with that error, whatever the options are: a project id given
    in the options does not prevent it. *)
Theorem service_account_errors_reject w e env
    (options : option GcpPluginOptions) (params : option FirestorePluginParams)
    (text : string) (err : error) :
  env_truthy (env !! "GCLOUD_SERVICE_ACCOUNT_CREDS") = Some text →
  JSON_parse w text = Throw err
  ∨ (∃ parsed, JSON_parse w text = Ok parsed
               ∧ getCredentials w
                   {| authOptions := Some {| ao_credentials := parsed |} |}
                 = Throw err) →
  googleCloud w e env options = Throw err
  ∧ firebase w e env params = Throw err.
Proof.
  intros Henv Hfail.
  assert (Hload : load_credentials w env = Throw err).
  { unfold load_credentials. rewrite Henv.
    destruct Hfail as [-> | (parsed & -> & Hc)]; [done |].
    simpl. by rewrite Hc. }
  unfold googleCloud, firebase. by rewrite Hload.
Qed.

(** X13. Without GCLOUD_SERVICE_ACCOUNT_CREDS (unset or empty) neither
    [JSON.parse] nor [getCredentials] is reached.  With a non-empty project
    id in the options [googleCloud] then succeeds in every world; without one
    it is rejected exactly when [getProjectId] of a client without
    credentials is, and with the same error. *)
Theorem googleCloud_without_service_account w e env
    (options : option GcpPluginOptions) :
  env_truthy (env !! "GCLOUD_SERVICE_ACCOUNT_CREDS") = None →
  (∀ s, optional_chain options o_projectId = Some s → s ≠ "" →
        ∃ out, googleCloud w e env options = Ok out)
  ∧ (optional_chain options o_projectId = None
     ∨ optional_chain options o_projectId = Some "" →
     ∀ err, googleCloud w e env options = Throw err
            ↔ getProjectId w {| authOptions := None |} = Throw err).
Proof.
  intros Henv. unfold googleCloud, load_credentials. rewrite Henv. simpl.
  split.
  - intros s -> Hs. rewrite projectId_or_lookup_given by done. by eexists.
  - intros Hmissing err. rewrite projectId_or_lookup_missing by done.
    destruct (getProjectId w {| authOptions := None |}) as [pid | err'];
      rewrite ?ret_bind; simpl; split; (discriminate || congruence).
Qed.

(** X14. An empty GCLOUD_SERVICE_ACCOUNT_CREDS is an unset one: both
    initialisers behave as if the variable were not there. *)
Theorem empty_service_account_is_unset w e env
    (options : option GcpPluginOptions) (params : option FirestorePluginParams) :
  googleCloud w e (<[ "GCLOUD_SERVICE_ACCOUNT_CREDS" := "" ]> env) options
  = googleCloud w e (delete "GCLOUD_SERVICE_ACCOUNT_CREDS" env) options
  ∧ firebase w e (<[ "GCLOUD_SERVICE_ACCOUNT_CREDS" := "" ]> env) params
    = firebase w e (delete "GCLOUD_SERVICE_ACCOUNT_CREDS" env) params.
Proof.
  unfold googleCloud, firebase, load_credentials.
  by rewrite lookup_insert_eq, lookup_delete_eq.
Qed.

Lemma defaults_resolve e (arg : option object) :
  TelemetryConfigs.defaults e arg = resolve e (default ∅ arg).
Proof. destruct arg, e; reflexivity. Qed.

Lemma lookup_spread_optional (a : object) (b : option object) (k : string) :
  spread_optional a b !! k
  = match optional_chain b (λ b, b !! k) with
    | Some v => Some v
    | None => a !! k
    end.
Proof. destruct b as [b |]; [apply lookup_spread | reflexivity]. Qed.

(** X15. The logger either plugin provides, when the telemetry overrides do
    not set [export]: in production, and in development with a truthy
    [forceDevExport], it writes JSON to Cloud Logging under the project id
    and the credentials of the plugin's configuration; in development
    otherwise it prints to the console and Cloud Logging is not among its
    transports.  A stream registered for testing follows in both cases. *)
Theorem provided_logger {Writable : Type} w e env
    (options : option GcpPluginOptions) (params : option FirestorePluginParams)
    (this : GcpLogger value) (overrides : option object)
    (additionalStream : option Writable) (env' : option string) :
  (∃ out, googleCloud w e env options = Ok out
          ∧ this = provider_value (logger (gc_telemetry out))
          ∧ overrides = optional_chain options o_telemetryConfig)
  ∨ (∃ out, firebase w e env params = Ok out
            ∧ this = provider_value (logger (fb_telemetry out))
            ∧ overrides = optional_chain params p_telemetryConfig) →
  default ∅ overrides !! "export" = None →
  let forced := to_boolean (get (default ∅ overrides) "forceDevExport") in
  let logger := getLogger this additionalStream env' in
  let extra := match additionalStream with
               | Some s => [Stream s]
               | None => []
               end in
  (e = production ∨ forced = true →
   format logger = format_json
   ∧ transports logger =
       LoggingWinston {| lw_projectId := projectId (config this);
                         lw_labels := [("module", "genkit")];
                         lw_prefix := "genkit";
                         lw_logName := "genkit_log";
                         lw_credentials := credentials (config this) |} :: extra)
  ∧ (e = development → forced = false →
     format logger = format_printf printf_template
     ∧ transports logger = Console :: extra).
Proof.
  intros Hthis Hex forced lg extra.
  assert (Htc : telemetryConfig (config this)
                = resolve e (default ∅ overrides)).
  { destruct Hthis as [(out & H & -> & ->) | (out & H & -> & ->)].
    - apply googleCloud_Ok in H as (a & l & pid & _ & _ & -> & _).
      apply defaults_resolve.
    - apply firebase_Ok in H as (a & l & pid & _ & _ & -> & _).
      apply defaults_resolve. }
  assert (Hexport : to_boolean (get (telemetryConfig (config this)) "export")
                    = if isDevEnv e then forced else true).
  { rewrite Htc, resolve_spread, get_spread, Hex. unfold get at 1.
    destruct e; cbn [TelemetryConfigs.base isDevEnv]; [| reflexivity].
    by rewrite development_export. }
  unfold lg, getLogger. cbn zeta. rewrite Hexport. split.
  - intros [-> | Hforced]; [| rewrite Hforced; destruct e];
      cbn [isDevEnv format transports]; by destruct additionalStream.
  - intros -> Hforced. cbn [isDevEnv]. rewrite Hforced.
    cbn [format transports]. by destruct additionalStream.
Qed.

(** X16. The options the two Firestore stores of [firebase] are built with:
    every entry of the [flowStateStore] (or [traceStore]) parameter is in
    them; unless that parameter has a property of the same name, [projectId]
    is the project id of the telemetry configuration and [credentials] are
    its credentials ([undefined] when it has none); and they have no other
    properties. *)
Theorem firebase_store_options w e env
    (params : option FirestorePluginParams) (out : FirebaseProvides) :
  firebase w e env params = Ok out →
  let cfg := config (provider_value (logger (fb_telemetry out))) in
  ∀ (given : option object) (store : object),
    (given = optional_chain params p_flowStateStore
     ∧ store = provider_value (fb_flowStateStore out))
    ∨ (given = optional_chain params p_traceStore
       ∧ store = provider_value (fb_traceStore out)) →
    default ∅ given ⊆ store
    ∧ (default ∅ given !! "projectId" = None →
       Some (get store "projectId") = VString <$> projectId cfg)
    ∧ (default ∅ given !! "credentials" = None →
       get store "credentials" = or_undefined (credentials cfg))
    ∧ (∀ k, is_Some (store !! k)
            ↔ is_Some (default ∅ given !! k)
              ∨ k = "projectId" ∨ k = "credentials").
Proof.
  intros H cfg given store Hstore.
  apply firebase_Ok in H as (a & l & pid & _ & _ & Hcfg & _ & Hflow & Htrace).
  assert (Hs : store = default ∅ given
                       ∪ {[ "projectId" := VString pid;
                            "credentials" := or_undefined l ]}).
  { destruct Hstore as [[-> ->] | [-> ->]]; [rewrite Hflow | rewrite Htrace].
    - destruct (optional_chain params p_flowStateStore); [reflexivity |].
      cbn [from_option spread_optional]. by rewrite (left_id_L ∅ (∪)).
    - destruct (optional_chain params p_traceStore); [reflexivity |].
      cbn [from_option spread_optional]. by rewrite (left_id_L ∅ (∪)). }
  unfold cfg. rewrite Hcfg, Hs. cbn [projectId credentials].
  split; [apply map_union_subseteq_l |]. split; [| split].
  - intros Hk. unfold get. by rewrite lookup_union, Hk.
  - intros Hk. unfold get. by rewrite lookup_union, Hk.
  - intros k.
    rewrite lookup_union_is_Some, lookup_insert_is_Some',
      lookup_singleton_is_Some.
    intuition congruence.
Qed.

End PluginProperties.

(** ** Sharing and freshness in the store *)

Section StoreSharing.

Import Store.

Lemma lookup_result (e : environment) (h : heap) (p : gmap string val) :
  (h ++ allocated e (length h) p)%list !! (5 + length h)%nat
  = Some (Object "Object" (p ∪ base_props e (length h) p)).
Proof.
  rewrite <- (app_nil_r (allocated e (length h) p)).
  exact (lookup_allocated e h [] p 5 _ eq_refl).
Qed.

(** X17. The merge is a shallow copy.  The result is a new object, not the
    override object, which is left as it was; each property of the override
    object is in the result with the very same value, so where that value is
    a reference (a caller's [autoInstrumentationConfig], [sampler] or array
    of instrumentations) the result refers to the caller's own cell, which
    is neither copied nor changed. *)
Theorem result_shares_override_objects (e : environment) (h h' : heap)
    (l : loc) (cls : string) (p : gmap string val) (r : val) :
  h !! l = Some (Object cls p) →
  defaults e (RRef l) h = Some (r, h') →
  ∃ lr q,
    r = RRef lr
    ∧ lr ≠ l
    ∧ h' !! lr = Some (Object "Object" q)
    ∧ h' !! l = Some (Object cls p)
    ∧ p ⊆ q
    ∧ ∀ f l', p !! f = Some (RRef l') →
              q !! f = Some (RRef l')
              ∧ ∀ c, h !! l' = Some c → h' !! l' = Some c.
Proof.
  intros Hl Hrun. rewrite (run_defaults e h l cls p Hl) in Hrun.
  injection Hrun as <- <-.
  exists (5 + length h)%nat, (p ∪ base_props e (length h) p).
  split; [reflexivity |]. split.
  { apply lookup_lt_Some in Hl. lia. }
  split; [apply lookup_result |].
  split; [by apply lookup_app_l_Some |].
  split; [apply map_union_subseteq_l |].
  intros f l' Hf. split; [by apply lookup_union_Some_l |].
  intros c Hc. by apply lookup_app_l_Some.
Qed.

(** A store in which the override object, at 1, has the object at 0 as its
    [autoInstrumentationConfig]. *)
Lemma result_shares_override_objects_witness :
  ∃ r h' lr q,
    defaults production (RRef 1)
      [Object "Object" ∅;
       Object "Object" {[ "autoInstrumentationConfig" := RRef 0 ]}]
    = Some (r, h')
    ∧ r = RRef lr
    ∧ h' !! lr = Some (Object "Object" q)
    ∧ q !! "autoInstrumentationConfig" = Some (RRef 0).
Proof.
  set (h := [Object "Object" ∅;
             Object "Object" {[ "autoInstrumentationConfig" := RRef 0 ]}]).
  destruct (defaults production (RRef 1) h)
    as [[r h'] |] eqn:Hrun; [| by vm_compute in Hrun].
  destruct (result_shares_override_objects production h h' 1 "Object"
              {[ "autoInstrumentationConfig" := RRef 0 ]} r eq_refl Hrun)
    as (lr & q & Hr & _ & Hq & _ & _ & Hshare).
  exists r, h', lr, q. repeat split; try done.
  exact (proj1 (Hshare "autoInstrumentationConfig" 0%nat eq_refl)).
Defined.

(** X18. The objects of the defaults are made anew by every call: a call
    with an override object adds six cells to the store, and a property among
    [sampler], [autoInstrumentationConfig] and [instrumentations] that the
    overrides do not set refers, in the result, to one of these new cells.
    Nothing that existed before the call, and no result of an earlier call,
    shares them. *)
Theorem default_objects_are_fresh (e : environment) (h h' : heap)
    (l : loc) (cls : string) (p : gmap string val) (r : val) (f : string) :
  h !! l = Some (Object cls p) →
  defaults e (RRef l) h = Some (r, h') →
  f ∈ ["sampler"; "autoInstrumentationConfig"; "instrumentations"] →
  p !! f = None →
  length h' = (length h + 6)%nat
  ∧ ∃ lr q l',
      r = RRef lr
      ∧ h' !! lr = Some (Object "Object" q)
      ∧ q !! f = Some (RRef l')
      ∧ length h ≤ l' < length h'
      ∧ h !! l' = None.
Proof.
  intros Hl Hrun Hf Hp. rewrite (run_defaults e h l cls p Hl) in Hrun.
  injection Hrun as <- <-.
  split; [by rewrite length_app |].
  exists (5 + length h)%nat, (p ∪ base_props e (length h) p).
  assert (Hq : ∀ v, base_props e (length h) p !! f = Some v →
                    (p ∪ base_props e (length h) p) !! f = Some v).
  { intros v Hv. by rewrite lookup_union_r. }
  rewrite length_app; cbn [length allocated].
  repeat (apply elem_of_cons in Hf as [-> | Hf]);
    [ exists (length h) | exists (S (S (length h)))
    | exists (S (S (S (length h)))) | by apply elem_of_nil in Hf ];
    (split; [reflexivity |]); (split; [apply lookup_result |]);
    (split; [apply Hq; reflexivity |]);
    (split; [lia | apply lookup_ge_None_2; lia]).
Qed.

Lemma default_objects_are_fresh_witness :
  ∃ r h',
    defaults development (RRef 0) [Object "Object" ∅] = Some (r, h')
    ∧ length h' = 7%nat.
Proof.
  destruct (defaults development (RRef 0) [Object "Object" ∅])
    as [[r h'] |] eqn:Hrun; [| by vm_compute in Hrun].
  exists r, h'. split; [reflexivity |].
  apply (default_objects_are_fresh development [Object "Object" ∅] h'
           0 "Object" ∅ r "sampler" eq_refl Hrun); [| reflexivity].
  apply list_elem_of_here.
Defined.

(** Every cell a store gains stays valid in a larger store. *)
Lemma valid_grow (h k : heap) (v : val) : valid h v → valid (h ++ k)%list v.
Proof. destruct v; simpl; try done. rewrite length_app. lia. Qed.

(** X19. A call keeps the store closed: if no cell of the store refers to a
    location outside it before the call, none does after it, and the value
    returned refers into the store. *)
Theorem call_keeps_store_closed (e : environment) (h h' : heap)
    (arg r : val) :
  closed h → is_argument h arg →
  defaults e arg h = Some (r, h') →
  closed h' ∧ valid h' r.
Proof.
  assert (Hobject : ∀ (h : heap) l cls p,
            closed h → h !! l = Some (Object cls p) →
            closed (h ++ allocated e (length h) p)%list).
  { clear. intros h l cls p Hclosed Hl l0 c Hc.
    assert (Hp : ∀ f v, p !! f = Some v →
                        valid (h ++ allocated e (length h) p)%list v).
    { intros f v Hv. apply valid_grow. exact (Hclosed l _ Hl f v Hv). }
    assert (Hb : ∀ f v, base_props e (length h) p !! f = Some v →
                        valid (h ++ allocated e (length h) p)%list v).
    { intros f v. unfold base_props. rewrite !lookup_insert, lookup_singleton.
      repeat (case_decide; [intros [= <-]; simpl; rewrite ?length_app;
                            simpl; try lia; try exact I |]);
        [| discriminate].
      destruct e; cbn [isDevEnv]; exact I. }
    apply lookup_app_Some in Hc as [Hc | [Hge Hc]].
    - pose proof (Hclosed l0 c Hc) as Hold.
      destruct c; intros ? v Hv; apply valid_grow; eauto.
    - destruct (l0 - length h)%nat as [| [| [| [| [| [| n]]]]]] eqn:Hn;
        simpl in Hc; try discriminate; injection Hc as <-.
      + intros f v. by rewrite lookup_empty.
      + intros f v. rewrite lookup_singleton. case_decide; [| done].
        by intros [= <-].
      + intros f v. rewrite lookup_singleton. case_decide; [| done].
        intros [= <-]. simpl. rewrite length_app. simpl. lia.
      + intros i v. by rewrite lookup_nil.
      + exact Hb.
      + intros f v Hv. apply lookup_union_Some_raw in Hv as [Hv | [_ Hv]];
          eauto. }
  intros Hclosed [-> | (l & cls & p & -> & Hl)] Hrun.
  - rewrite run_defaults_undefined in Hrun. injection Hrun as <- <-.
    assert (Hclosed0 : closed (h ++ [Object "Object" ∅])%list).
    { intros l0 c Hc. apply lookup_app_Some in Hc as [Hc | [Hge Hc]].
      - pose proof (Hclosed l0 c Hc) as Hold.
        destruct c; intros ? v Hv; apply valid_grow; eauto.
      - destruct (l0 - length h)%nat; simpl in Hc; [| discriminate].
        injection Hc as <-. intros f v. by rewrite lookup_empty. }
    pose proof (Hobject _ (length h) "Object" ∅ Hclosed0
                  (lookup_snoc_last h _)) as Hc.
    rewrite length_snoc, <- app_assoc in Hc. split; [exact Hc |].
    simpl. rewrite length_app. simpl. lia.
  - rewrite (run_defaults e h l cls p Hl) in Hrun. injection Hrun as <- <-.
    split; [by apply Hobject with l cls |].
    simpl. rewrite length_app. simpl. lia.
Qed.

Lemma call_keeps_store_closed_witness :
  ∃ r h', defaults production RUndefined [] = Some (r, h') ∧ closed h'.
Proof.
  destruct (defaults production RUndefined []) as [[r h'] |] eqn:Hrun;
    [| by vm_compute in Hrun].
  exists r, h'. split; [reflexivity |].
  apply (call_keeps_store_closed production [] h' RUndefined r);
    [| by left | exact Hrun].
  intros l c Hc. by rewrite lookup_nil in Hc.
Defined.

End StoreSharing.

(** ** The plugin initialisers in two sample worlds *)

(** With the variable set and credentials returned by the auth client,
    [googleCloud] without options has no credentials in its configuration. *)
Lemma googleCloud_credentials_from_options_witness :
  ∃ out,
    googleCloud obliging_world production
      {[ "GCLOUD_SERVICE_ACCOUNT_CREDS" := "{}" ]} None = Ok out
    ∧ credentials (config (provider_value (logger (gc_telemetry out)))) = None.
Proof.
  destruct (googleCloud obliging_world production
              {[ "GCLOUD_SERVICE_ACCOUNT_CREDS" := "{}" ]} None)
    as [out | err] eqn:Hrun; [| by vm_compute in Hrun].
  exists out. split; [reflexivity |].
  exact (proj1 (googleCloud_credentials_from_options obliging_world production
                  {[ "GCLOUD_SERVICE_ACCOUNT_CREDS" := "{}" ]} None out Hrun)).
Defined.

(** With the same variable, [firebase] has the credentials the auth client
    returned. *)
Lemma firebase_credentials_from_environment_witness :
  ∃ out,
    firebase obliging_world production
      {[ "GCLOUD_SERVICE_ACCOUNT_CREDS" := "{}" ]} None = Ok out
    ∧ credentials (config (provider_value (logger (fb_telemetry out))))
      = Some (literal {[ "client_email" := VString "sa@example.com" ]}).
Proof.
  destruct (firebase obliging_world production
              {[ "GCLOUD_SERVICE_ACCOUNT_CREDS" := "{}" ]} None)
    as [out | err] eqn:Hrun; [| by vm_compute in Hrun].
  exists out. split; [reflexivity |].
  pose proof (firebase_credentials_from_environment obliging_world production
                {[ "GCLOUD_SERVICE_ACCOUNT_CREDS" := "{}" ]} None out Hrun) as H.
  change (env_truthy _) with (Some "{}") in H.
  destruct H as (parsed & c & _ & Hc & ->).
  by injection Hc as <-.
Defined.

(** A project id in the options: a world in which the auth client cannot
    detect a project gives the same outcome. *)
Lemma explicit_projectId_skips_lookup_witness :
  googleCloud obliging_world development ∅
    (Some {| o_projectId := Some "my-project";
             o_telemetryConfig := None;
             o_credentials := None |})
  = googleCloud
      {| JSON_parse := JSON_parse obliging_world;
         getCredentials := getCredentials obliging_world;
         getProjectId := λ _, Throw "no project" |}
      development ∅
      (Some {| o_projectId := Some "my-project";
               o_telemetryConfig := None;
               o_credentials := None |}).
Proof.
  refine (proj1 (proj1 (explicit_projectId_skips_lookup obliging_world
                          {| JSON_parse := JSON_parse obliging_world;
                             getCredentials := getCredentials obliging_world;
                             getProjectId := λ _, Throw "no project" |}
                          development ∅
                          (Some {| o_projectId := Some "my-project";
                                   o_telemetryConfig := None;
                                   o_credentials := None |})
                          None "my-project" _ _ _) eq_refl)).
  - discriminate.
  - reflexivity.
  - reflexivity.
Defined.

(** A variable that holds no JSON rejects both initialisers, project id or
    not. *)
Lemma service_account_errors_reject_witness :
  googleCloud failing_world production
    {[ "GCLOUD_SERVICE_ACCOUNT_CREDS" := "not json" ]}
    (Some {| o_projectId := Some "my-project";
             o_telemetryConfig := None;
             o_credentials := None |})
  = Throw "SyntaxError".
Proof.
  refine (proj1 (service_account_errors_reject failing_world production
                   {[ "GCLOUD_SERVICE_ACCOUNT_CREDS" := "not json" ]}
                   (Some {| o_projectId := Some "my-project";
                            o_telemetryConfig := None;
                            o_credentials := None |})
                   None "not json" "SyntaxError" eq_refl _)).
  left. reflexivity.
Defined.

(** With a project id and no variable, [googleCloud] succeeds although every
    outside call would fail. *)
Lemma googleCloud_without_service_account_witness :
  ∃ out,
    googleCloud failing_world development ∅
      (Some {| o_projectId := Some "my-project";
               o_telemetryConfig := None;
               o_credentials := None |}) = Ok out.
Proof.
  refine (proj1 (googleCloud_without_service_account failing_world development ∅
                   (Some {| o_projectId := Some "my-project";
                            o_telemetryConfig := None;
                            o_credentials := None |}) eq_refl)
            "my-project" eq_refl _).
  discriminate.
Defined.

(** The logger [googleCloud] provides in production writes JSON; the one it
    provides in development prints. *)
Lemma provided_logger_witness :
  ∃ out,
    googleCloud obliging_world production ∅ None = Ok out
    ∧ format (getLogger (Writable := unit)
                (provider_value (logger (gc_telemetry out))) None None)
      = format_json.
Proof.
  destruct (googleCloud obliging_world production ∅ None)
    as [out | err] eqn:Hrun; [| by vm_compute in Hrun].
  exists out. split; [reflexivity |].
  pose proof (provided_logger (Writable := unit) obliging_world production ∅
                None None (provider_value (logger (gc_telemetry out)))
                None None None) as H.
  destruct H as [H _].
  - left. exists out. by repeat split.
  - reflexivity.
  - apply H. by left.
Defined.

(** The flow state store of [firebase] with a collection name. *)
Lemma firebase_store_options_witness :
  ∃ out,
    firebase obliging_world production ∅
      (Some {| p_projectId := None;
               p_flowStateStore := Some {[ "collection" := VString "flows" ]};
               p_traceStore := None;
               p_telemetryConfig := None |}) = Ok out
    ∧ get (provider_value (fb_flowStateStore out)) "projectId"
      = VString "detected-project"
    ∧ get (provider_value (fb_flowStateStore out)) "collection"
      = VString "flows".
Proof.
  set (params := Some {| p_projectId := None;
                         p_flowStateStore := Some {[ "collection" := VString "flows" ]};
                         p_traceStore := None;
                         p_telemetryConfig := None |}).
  destruct (firebase obliging_world production ∅ params)
    as [out | err] eqn:Hrun; [| by vm_compute in Hrun].
  exists out. split; [reflexivity |].
  destruct (firebase_store_options obliging_world production ∅ params out Hrun
              (Some {[ "collection" := VString "flows" ]})
              (provider_value (fb_flowStateStore out)))
    as (Hsub & Hpid & _ & _).
  - left. by split.
  - apply firebase_Ok in Hrun as (a & l & pid & _ & Hlookup & Hcfg & _).
    injection Hlookup as <-. rewrite Hcfg in Hpid. cbn [projectId] in Hpid.
    split.
    + specialize (Hpid eq_refl). by injection Hpid as ->.
    + unfold get.
      by rewrite (lookup_weaken _ _ "collection" (VString "flows") eq_refl Hsub).
Defined.

(** The development defaults, read back from a store that holds an empty
    override object. *)
Lemma store_result_contents_witness :
  ∃ r h',
    Store.defaults development (Store.RRef 0) [Store.Object "Object" ∅]
    = Some (r, h')
    ∧ Store.snapshot 3 h' r = VObject "Object" (resolve development ∅).
Proof.
  destruct (store_result_contents development [Store.Object "Object" ∅]
              0 "Object" ∅ 0) as (r & h' & Hrun & Hview).
  - intros l c Hc. destruct l as [| l]; [| by destruct l].
    injection Hc as <-. intros f v. by rewrite lookup_empty.
  - reflexivity.
  - exists r, h'. split; [exact Hrun |].
    change 3%nat with (3 + 0)%nat. rewrite Hview.
    by rewrite fmap_empty.
Defined.
